(** * PERN-STACK-STORE: the request-admission pipeline and dispatcher of
    [backend/server.js], with the product router of
    [backend/routes/productRoutes.js].

    The server is an Express application: a stack of layers built by a
    sequence of [app.use] / [app.get] calls, then a bootstrap
    ([initDB().then(...)]) that may add one more layer and starts listening.
    The embedding keeps that shape: JavaScript strings are [string]s, the
    header table and [process.env] are finite maps, every middleware is a
    function from the request to what it does with control ([next()],
    [next(err)] or a response), and the application is the list of its
    layers in registration order. *)

From Stdlib Require Import Ascii String ZArith Lia.
From Stdlib Require DecimalString.
From stdpp Require Import base strings gmap list.

Local Open Scope Z_scope.

(** ** JavaScript strings *)

Module Js.

(** [String.prototype.toLowerCase], on the code units a Node header value
    or request path can hold (Node decodes both as Latin-1): A-Z and the
    Latin-1 capitals U+00C0..U+00DE (U+00D7, the multiplication sign,
    excepted) move up by 32, every other unit is unchanged. *)
Definition lowerUnit (c : ascii) : ascii :=
  let n := N_of_ascii c in
  if ((65 <=? n) && (n <=? 90))%N then ascii_of_N (n + 32)
  else if ((192 <=? n) && (n <=? 222) && negb (n =? 215))%N
       then ascii_of_N (n + 32)
       else c.

Fixpoint toLowerCase (s : string) : string :=
  match s with
  | EmptyString => EmptyString
  | String c s' => String (lowerUnit c) (toLowerCase s')
  end.

(** [s.startsWith(p)] *)
Fixpoint startsWith (s p : string) {struct p} : bool :=
  match p, s with
  | EmptyString, _ => true
  | String a p', String b s' => Ascii.eqb a b && startsWith s' p'
  | String _ _, EmptyString => false
  end.

(** [s.includes(t)]: [t] starts at some position of [s]. *)
Fixpoint includes (s t : string) : bool :=
  startsWith s t ||
  match s with
  | EmptyString => false
  | String _ s' => includes s' t
  end.

(** [a === b] on strings. *)
Definition strictEq (a b : string) : bool := String.eqb a b.

(** [s || ''] where [s] is a string or [undefined]: the empty string is
    falsy, so both [undefined] and [''] give ['']. *)
Definition orEmpty (s : option string) : string :=
  match s with
  | Some (String c r) => String c r
  | Some EmptyString => EmptyString
  | None => EmptyString
  end.

End Js.

(** ** Requests, responses and what a middleware does with control *)

Inductive Method := GET | HEAD | POST | PUT | DELETE | PATCH | OPTIONS.

#[global] Instance Method_eq_dec : EqDecision Method.
Proof. solve_decision. Defined.

(** [req.method], [req.path] (the pathname of the URL, query removed) and
    [req.headers] (Node lower-cases the header names). *)
Record Request := mkRequest {
  method : Method;
  path : string;
  headers : gmap string string
}.

Unset Elimination Schemes.
Inductive Json :=
| JString (s : string)
| JBool (b : bool)
| JArray (items : list Json)
| JObject (fields : list (string * Json)).
Set Elimination Schemes.

Inductive Body :=
| JsonBody (j : Json)          (* res.json(j) *)
| TextBody (s : string)        (* res.send(s) *)
| FileBody (file : string)     (* res.sendFile(file), or a file served by express.static *)
| HtmlBody (s : string).       (* the page written by Express's final handler *)

Record Response := mkResponse { status : Z; body : Body }.

(** A thrown or forwarded JavaScript error; [errStatus] is its [status]
    property when it has one (body-parser sets 400 on malformed JSON). *)
Record Error := mkError { errMessage : string; errStatus : option Z }.

Inductive Outcome :=
| Pass                      (* next() *)
| PassError (e : Error)     (* next(err) *)
| Reply (r : Response).     (* a response was sent; the chain stops *)

(** [res.status(code).json(obj)] and [res.json(obj)] (status 200). *)
Definition res_status_json (code : Z) (fields : list (string * Json)) : Outcome :=
  Reply {| status := code; body := JsonBody (JObject fields) |}.
Definition res_json (fields : list (string * Json)) : Outcome :=
  res_status_json 200 fields.

(** A JSON object with an [error] field. *)
Definition hasErrorField (b : Body) : Prop :=
  match b with
  | JsonBody (JObject fields) => exists v, In ("error", v) fields
  | _ => False
  end.

(** ** The decision service *)

Module Arcjet.

(** Modelled from the spec: the decision object returned by
    [aj.protect(request, {requested})]. [lib/arcjet.js] and the decision
    service behind it are not among the sources; only the observers the
    middleware calls are given: [isDenied()], [reason.isRateLimit()],
    [reason.isBot()], [reason.isSpoofed()] and the list [results]. *)
Inductive Reason :=
| RateLimitReason
| BotReason (spoofed : bool)
| ShieldReason
| EmailReason
| ErrorReason (message : string)
| OtherReason.

Inductive Conclusion := ALLOW | DENY | CHALLENGE | ERROR.

Record RuleResult := mkRuleResult {
  ruleConclusion : Conclusion;
  ruleReason : Reason
}.

Record Decision := mkDecision {
  conclusion : Conclusion;
  reason : Reason;
  results : list RuleResult
}.

Definition isDenied (d : Decision) : bool :=
  match conclusion d with DENY => true | _ => false end.
Definition isRateLimit (r : Reason) : bool :=
  match r with RateLimitReason => true | _ => false end.
Definition isBot (r : Reason) : bool :=
  match r with BotReason _ => true | _ => false end.
(** Only bot reasons carry [isSpoofed]; the middleware calls it behind
    [isBot() &&]. *)
Definition isSpoofed (r : Reason) : bool :=
  match r with BotReason s => s | _ => false end.

Record ProtectOptions := mkProtectOptions { requested : Z }.

(** The client object [aj]: one call of [protect] either rejects (the
    service cannot be reached, the client throws) or resolves with a
    decision. *)
Record Client := mkClient {
  protect : Request -> ProtectOptions -> Error + Decision
}.

End Arcjet.

(** ** Effects of a handler: what it logs and which services it calls *)

Inductive Event :=
| ConsoleLog (msg : string)
| AjProtect (req : Request) (opts : Arcjet.ProtectOptions).

(** A handler run: the events in program order and what it did with control. *)
Definition Run : Type := list Event * Outcome.

Definition ret (o : Outcome) : Run := ([], o).
Definition emit (e : Event) (k : Run) : Run := (e :: fst k, snd k).

(** [await aj.protect(req, opts)] inside [try { ... } catch (error) { ... }]:
    the call is recorded, then the body runs on a decision and the catch
    block on a rejection. *)
Definition try_protect (aj : Arcjet.Client) (req : Request)
    (opts : Arcjet.ProtectOptions)
    (body : Arcjet.Decision -> Run) (catch : Error -> Run) : Run :=
  emit (AjProtect req opts)
    match Arcjet.protect aj req opts with
    | inr decision => body decision
    | inl error => catch error
    end.

(** ** The rate-limit stage, server.js lines 42-75 *)

Definition NODE_ENV (env : gmap string string) : option string := env !! "NODE_ENV".

(** [process.env.NODE_ENV === 'production'] *)
Definition isProduction (env : gmap string string) : bool :=
  match NODE_ENV env with
  | Some v => Js.strictEq v "production"
  | None => false
  end.

(** [const ua = req.headers['user-agent'] || ''] *)
Definition userAgent (req : Request) : string :=
  Js.orEmpty (headers req !! "user-agent").

(** [ua.toLowerCase().includes('postman')] *)
Definition isTestTool (ua : string) : bool :=
  Js.includes (Js.toLowerCase ua) "postman".

Definition isSpoofedBot (result : Arcjet.RuleResult) : bool :=
  Arcjet.isBot (Arcjet.ruleReason result) && Arcjet.isSpoofed (Arcjet.ruleReason result).

Definition arcjetMiddleware (env : gmap string string) (aj : Arcjet.Client)
    (req : Request) : Run :=
  let ua := userAgent req in
  if negb (isProduction env) && isTestTool ua then ret Pass
  else
    try_protect aj req {| Arcjet.requested := 1 |}
      (fun decision =>
         if Arcjet.isDenied decision then
           if Arcjet.isRateLimit (Arcjet.reason decision) then
             ret (res_status_json 429 [("error", JString "Too Many Requests")])
           else if Arcjet.isBot (Arcjet.reason decision) then
             ret (res_status_json 403 [("error", JString "Bot access denied")])
           else
             ret (res_status_json 403 [("error", JString "Forbidden")])
         else if existsb isSpoofedBot (Arcjet.results decision) then
           ret (res_status_json 403 [("error", JString "Spoofed bot detected")])
         else ret Pass)
      (fun error =>
         emit (ConsoleLog "Arcjet error") (ret (PassError error))).

(** The run consulted the decision service. *)
Definition isProtectCall (e : Event) : bool :=
  match e with AjProtect _ _ => true | _ => false end.
Definition consulted (r : Run) : bool := existsb isProtectCall (fst r).

(** The stage was bypassed: control went to the next stage and the decision
    service was not consulted. *)
Definition bypassed (r : Run) : Prop := consulted r = false /\ snd r = Pass.

(** The options of the stage's call: [{ requested: 1 }]. *)
Definition costOne : Arcjet.ProtectOptions := {| Arcjet.requested := 1 |}.

(** A denial: a response of the given status whose body is a JSON object
    with an [error] field. *)
Definition denies (o : Outcome) (code : Z) : Prop :=
  exists b, o = Reply {| status := code; body := b |} /\ hasErrorField b.

(** [ua] contains [signature] when case is ignored. *)
Definition containsIgnoringCase (ua signature : string) : Prop :=
  exists pre mid post,
    ua = pre +:+ mid +:+ post /\ Js.toLowerCase mid = Js.toLowerCase signature.

(** ** Express path matching *)

Module PathMatch.

Definition slash : ascii := "/"%char.

(** The text up to the next ["/"] and what follows (the ["/"] included). *)
Fixpoint takeSegment (s : string) : string * string :=
  match s with
  | EmptyString => (EmptyString, EmptyString)
  | String c r =>
      if Ascii.eqb c slash then (EmptyString, s)
      else let '(seg, rest) := takeSegment r in (String c seg, rest)
  end.

Inductive Token :=
| Lit (s : string)        (* a fixed segment *)
| Param (name : string).  (* a variable segment, [:name] *)

Definition tokenOf (seg : string) : Token :=
  match seg with
  | String ":" name => Param name
  | _ => Lit seg
  end.

(** The segments of a pattern such as ["/:id"] or ["/api/test"]; fuel is
    the length of the pattern. A trailing slash of the pattern is dropped
    (routing is not strict), so ["/"] has no segment. *)
Fixpoint tokensFrom (fuel : nat) (pattern : string) : list Token :=
  match fuel with
  | O => []
  | S fuel' =>
      match pattern with
      | EmptyString => []
      | String c r =>
          if Ascii.eqb c slash then
            match r with
            | EmptyString => []
            | _ => let '(seg, rest) := takeSegment r in
                   tokenOf seg :: tokensFrom fuel' rest
            end
          else []
      end
  end.

Definition tokens (pattern : string) : list Token :=
  tokensFrom (String.length pattern) pattern.

(** A path against the segments of a route (matched to the end): each
    segment is ["/"] followed by the literal, compared without regard to
    case, or by a non-empty text without ["/"] for a parameter; one
    trailing ["/"] is allowed. The result is [req.params], each value as it
    is written in the path (Express URI-decodes the values; the routes that
    [server.js] installs have no parameter). *)
Fixpoint matchTokens (toks : list Token) (p : string)
    : option (list (string * string)) :=
  match toks with
  | [] =>
      match p with
      | EmptyString => Some []
      | String c EmptyString => if Ascii.eqb c slash then Some [] else None
      | _ => None
      end
  | tok :: toks' =>
      match p with
      | String c r =>
          if Ascii.eqb c slash then
            let '(seg, rest) := takeSegment r in
            match tok with
            | Lit l =>
                if String.eqb (Js.toLowerCase seg) (Js.toLowerCase l)
                then matchTokens toks' rest else None
            | Param name =>
                match seg with
                | EmptyString => None
                | _ => option_map (cons (name, seg)) (matchTokens toks' rest)
                end
            end
          else None
      | EmptyString => None
      end
  end.

(** [router.get(pattern, ...)] against a path. *)
Definition matchRoute (pattern p : string) : option (list (string * string)) :=
  matchTokens (tokens pattern) p.

(** The rest of [p] after [prefix], compared without regard to case. *)
Fixpoint stripPrefix (prefix p : string) : option string :=
  match prefix with
  | EmptyString => Some p
  | String a prefix' =>
      match p with
      | String b p' =>
          if Ascii.eqb (Js.lowerUnit a) (Js.lowerUnit b)
          then stripPrefix prefix' p' else None
      | EmptyString => None
      end
  end.

(** [app.use(prefix, ...)]: the path starts with the prefix and the prefix
    ends at a segment boundary; one ["/"] that closes the prefix is
    consumed with it. The result is the path the mounted handler sees,
    which always starts with ["/"]. *)
Definition matchMount (prefix p : string) : option string :=
  match stripPrefix prefix p with
  | None => None
  | Some EmptyString => Some "/"
  | Some (String c r as rest) =>
      if Ascii.eqb c slash then
        match r with
        | EmptyString => Some "/"
        | String c' _ => if Ascii.eqb c' slash then Some r else Some rest
        end
      else None
  end.

End PathMatch.

(** [route._handles_method(method)]: a HEAD request is served by a GET
    route. *)
Definition handlesMethod (routeMethod m : Method) : bool :=
  bool_decide (routeMethod = m) ||
  (bool_decide (m = HEAD) && bool_decide (routeMethod = GET)).

(** ** The product router *)

(** The exports of [controllers/productContorller.js] that the routers
    name. The controller file is not among the sources; what a controller
    does with a request is a field of [World]. *)
Inductive Controller :=
| getAllProducts | getProducts | getProduct
| createProduct | updateProduct | deleteProduct.

Record RouterRoute := mkRoute {
  routeMethod : Method;
  routePattern : string;
  routeHandler : Controller
}.

(** [backend/routes/productRoutes.js], the module [server.js] imports as
    ["./routes/productRoutes.js"] (lines 12-19; the import is taken to
    succeed, otherwise [app.use] at line 96 throws and nothing is served). *)
Definition productRoutes : list RouterRoute :=
  [ mkRoute GET "/" getAllProducts;
    mkRoute POST "/" createProduct ].

(** The router of the repository's other routes file (part_000), which
    [server.js] does not import. *)
Definition productRoutes_part_000 : list RouterRoute :=
  [ mkRoute GET "/" getProducts;
    mkRoute GET "/:id" getProduct;
    mkRoute POST "/" createProduct;
    mkRoute PUT "/:id" updateProduct;
    mkRoute DELETE "/:id" deleteProduct ].

Definition methodName (m : Method) : string :=
  match m with
  | GET => "GET" | HEAD => "HEAD" | POST => "POST" | PUT => "PUT"
  | DELETE => "DELETE" | PATCH => "PATCH" | OPTIONS => "OPTIONS"
  end.

(** [route._options()]: the methods of a route, with HEAD after GET. *)
Definition routeOptions (m : Method) : list Method :=
  match m with GET => [GET; HEAD] | _ => [m] end.

(** [appendMethods(list, addition)]: push the methods not yet listed. *)
Fixpoint appendMethods (l addition : list Method) : list Method :=
  match addition with
  | [] => l
  | m :: rest =>
      appendMethods (if bool_decide (m ∈ l) then l else l ++ [m]) rest
  end.

Fixpoint joinComma (l : list string) : string :=
  match l with
  | [] => ""
  | [s] => s
  | s :: rest => s +:+ "," +:+ joinComma rest
  end.

(** [sendOptionsResponse]: the automatic answer to an OPTIONS request for
    which routes exist under other methods. *)
Definition optionsResponse (options : list Method) : Response :=
  {| status := 200; body := TextBody (joinComma (methodName <$> options)) |}.

(** The options collected for an OPTIONS request when a route matches the
    path but not the method. *)
Definition collectOptions (req : Request) (options : list Method)
    (routeM : Method) : list Method :=
  if bool_decide (method req = OPTIONS)
  then appendMethods options (routeOptions routeM) else options.

(** The end of a router's stack: the automatic OPTIONS answer when there is
    one to give, else control returns to whoever called the router. *)
Definition routerDone (req : Request) (options : list Method) : Outcome :=
  match options with
  | _ :: _ => if bool_decide (method req = OPTIONS)
              then Reply (optionsResponse options) else Pass
  | [] => Pass
  end.

(** [router.handle]: the routes in registration order; the first whose
    pattern and method match runs its controller, and a controller that
    calls [next()] lets the search go on. *)
Fixpoint routerHandle
    (controller : Controller -> Request -> list (string * string) -> Outcome)
    (routes : list RouterRoute) (req : Request) (options : list Method)
    : Outcome :=
  match routes with
  | [] => routerDone req options
  | r :: rest =>
      match PathMatch.matchRoute (routePattern r) (path req) with
      | None => routerHandle controller rest req options
      | Some params =>
          if handlesMethod (routeMethod r) (method req) then
            match controller (routeHandler r) req params with
            | Pass => routerHandle controller rest req options
            | PassError e => PassError e
            | Reply resp => Reply resp
            end
          else routerHandle controller rest req
                 (collectOptions req options (routeMethod r))
      end
  end.

(** ** The application: handlers, layers and the world around them *)

Record HelmetOptions := mkHelmetOptions { contentSecurityPolicy : bool }.

Inductive Handler :=
| express_json                       (* express.json() *)
| cors                               (* cors() *)
| helmet (o : HelmetOptions)         (* helmet({...}) *)
| morgan (format : string)           (* morgan("dev") *)
| arcjet                             (* the rate-limit stage, lines 42-75 *)
| testPath                           (* handler of "/test-path", lines 82-92 *)
| router (routes : list RouterRoute) (* productRoutes *)
| apiTest                            (* handler of "/api/test", lines 100-102 *)
| express_static (root : string)     (* express.static(distPath) *)
| catchAll.                          (* the production fallback, lines 158-171 *)

Inductive Layer :=
| Use (h : Handler)                      (* app.use(fn) *)
| UseAt (prefix : string) (h : Handler)  (* app.use(prefix, fn) *)
| Get (pattern : string) (h : Handler).  (* app.get(pattern, fn) *)

Definition layerHandler (l : Layer) : Handler :=
  match l with Use h | UseAt _ h | Get _ h => h end.

(** What the server code takes from outside: the process environment, the
    file system, the decision service, the third-party middleware and the
    controllers. *)
Record World := mkWorld {
  processEnv : gmap string string;                 (* process.env *)
  dirname : string;                                (* __dirname *)
  path_join : string -> string -> string;          (* path.join *)
  path_dirname : string -> string;                 (* path.dirname *)
  existsSync : string -> bool;                     (* fs.existsSync *)
  readdirSync : string -> list string;             (* fs.readdirSync *)
  staticFile : string -> string -> option Response;
    (* what express.static(root) finds for a path; None: nothing to serve *)
  aj : Arcjet.Client;
  jsonParser : Request -> Outcome;
  corsMiddleware : Request -> Outcome;
  helmetMiddleware : HelmetOptions -> Request -> Outcome;
  morganMiddleware : string -> Request -> Outcome;
  controller : Controller -> Request -> list (string * string) -> Outcome
}.

Definition distPath (w : World) : string :=
  path_join w (dirname w) "../frontend/dist".
Definition indexPath (w : World) : string :=
  path_join w (dirname w) "../frontend/dist/index.html".

(** Lines 82-92. *)
Definition testPathHandler (w : World) (req : Request) : Outcome :=
  let indexPath := indexPath w in
  let exists_ := existsSync w indexPath in
  res_json [ ("__dirname", JString (dirname w));
             ("distPath", JString (distPath w));
             ("indexPath", JString indexPath);
             ("exists", JBool exists_);
             ("files", JArray (if exists_
                               then JString <$> readdirSync w (path_dirname w indexPath)
                               else [])) ].

(** Lines 100-102. *)
Definition apiTestHandler (req : Request) : Outcome :=
  res_json [ ("message", JString "API is working") ].

(** [express.static(root)]: GET and HEAD only, and a path with nothing to
    serve falls through. *)
Definition staticMiddleware (w : World) (root : string) (req : Request) : Outcome :=
  match method req with
  | GET | HEAD =>
      match staticFile w root (path req) with
      | Some resp => Reply resp
      | None => Pass
      end
  | _ => Pass
  end.

(** Lines 158-171. *)
Definition catchAllMiddleware (w : World) (req : Request) : Outcome :=
  if Js.startsWith (path req) "/api/" || Js.strictEq (path req) "/test-path"
  then Pass
  else
    let indexPath := indexPath w in
    if existsSync w indexPath
    then Reply {| status := 200; body := FileBody indexPath |}
    else Reply {| status := 404; body := TextBody "Frontend build not found" |}.

Definition runHandler (w : World) (h : Handler) (req : Request) : Outcome :=
  match h with
  | express_json => jsonParser w req
  | cors => corsMiddleware w req
  | helmet o => helmetMiddleware w o req
  | morgan format => morganMiddleware w format req
  | arcjet => snd (arcjetMiddleware (processEnv w) (aj w) req)
  | testPath => testPathHandler w req
  | router routes => routerHandle (controller w) routes req []
  | apiTest => apiTestHandler req
  | express_static root => staticMiddleware w root req
  | catchAll => catchAllMiddleware w req
  end.

(** ** Dispatch through the application's stack *)

Inductive LayerMatch :=
| NoMatch
| WrongMethod (routeM : Method)   (* the path matches a route of another method *)
| Matched (req' : Request).       (* the request as the handler sees it *)

Definition layerMatch (l : Layer) (req : Request) : LayerMatch :=
  match l with
  | Use _ => Matched req
  | UseAt prefix _ =>
      match PathMatch.matchMount prefix (path req) with
      | Some rest => Matched {| method := method req; path := rest; headers := headers req |}
      | None => NoMatch
      end
  | Get pattern _ =>
      match PathMatch.matchRoute pattern (path req) with
      | Some _ => if handlesMethod GET (method req) then Matched req else WrongMethod GET
      | None => NoMatch
      end
  end.

Definition errorStatus (e : Error) : Z :=
  match errStatus e with
  | Some s => if (400 <=? s) && (s <? 600) then s else 500
  | None => 500
  end.

(** Express's final handler: no layer answered (404), or an error was
    forwarded and no error-handling middleware is registered (the error's
    status, 500 by default). *)
Definition finalhandler (err : option Error) (req : Request) : Response :=
  match err with
  | None => {| status := 404;
               body := HtmlBody ("Cannot " +:+ methodName (method req) +:+ " " +:+ path req) |}
  | Some e => {| status := errorStatus e; body := HtmlBody (errMessage e) |}
  end.

(** The end of the application's stack. *)
Definition appDone (req : Request) (options : list Method) : Response :=
  match routerDone req options with
  | Reply resp => resp
  | _ => finalhandler None req
  end.

(** [app.handle]: the layers in registration order. The result is the list
    of the handlers that ran, in order, and the response. Every function
    the server registers takes at most three arguments, so none is an
    error handler: a forwarded error skips all remaining layers. *)
Fixpoint handle (w : World) (stack : list Layer) (req : Request)
    (options : list Method) : list Handler * Response :=
  match stack with
  | [] => ([], appDone req options)
  | l :: rest =>
      match layerMatch l req with
      | NoMatch => handle w rest req options
      | WrongMethod m => handle w rest req (collectOptions req options m)
      | Matched req' =>
          let h := layerHandler l in
          match runHandler w h req' with
          | Pass => let '(hs, resp) := handle w rest req options in (h :: hs, resp)
          | PassError e => ([h], finalhandler (Some e) req)
          | Reply resp => ([h], resp)
          end
      end
  end.

(** ** The server script as a sequence of statements *)

Inductive PortValue :=
| PortString (s : string)   (* process.env.PORT *)
| PortNumber (n : Z).

(** [process.env.PORT || 3005] *)
Definition PORT (env : gmap string string) : PortValue :=
  match Js.orEmpty (env !! "PORT") with
  | EmptyString => PortNumber 3005
  | s => PortString s
  end.

(** The outcome of the [CREATE TABLE IF NOT EXISTS products (...)]
    statement: done, or a storage error. *)
Definition SqlResult : Type := Error + unit.

Inductive Action :=
| AppUse (l : Layer)              (* app.use / app.get *)
| Log (msg : string)              (* console.log *)
| SqlIssue                        (* the statement is sent to the store *)
| SqlSettle (r : SqlResult)       (* the awaited statement completes or fails *)
| AppListen (port : PortValue).   (* app.listen(PORT, ...) *)

Inductive TableCreate :=
| NotIssued
| Pending
| Finished (r : SqlResult).

Record Sys := mkSys {
  stack : list Layer;
  listening : option PortValue;
  tableCreate : TableCreate;
  console : list string
}.

Definition initial : Sys :=
  {| stack := []; listening := None; tableCreate := NotIssued; console := [] |}.

Definition exec (s : Sys) (a : Action) : Sys :=
  match a with
  | AppUse l =>
      {| stack := stack s ++ [l]; listening := listening s;
         tableCreate := tableCreate s; console := console s |}
  | Log msg =>
      {| stack := stack s; listening := listening s;
         tableCreate := tableCreate s; console := console s ++ [msg] |}
  | SqlIssue =>
      {| stack := stack s; listening := listening s;
         tableCreate := Pending; console := console s |}
  | SqlSettle r =>
      {| stack := stack s; listening := listening s;
         tableCreate := Finished r; console := console s |}
  | AppListen port =>
      {| stack := stack s; listening := Some port;
         tableCreate := tableCreate s; console := console s |}
  end.

Definition run (s : Sys) (script : list Action) : Sys := fold_left exec script s.

(** Lines 32-108: the statements the module runs when it is loaded. *)
Definition topLevel (w : World) : list Action :=
  [ AppUse (Use express_json);
    AppUse (Use cors);
    AppUse (Use (helmet {| contentSecurityPolicy := false |}));
    AppUse (Use (morgan "dev"));
    AppUse (Use arcjet);
    Log "Current __dirname:";
    Log "Looking for dist at:";
    AppUse (Get "/test-path" testPath);
    Log "About to register product routes...";
    AppUse (UseAt "/api/products" (router productRoutes));
    Log "Product routes registered successfully";
    AppUse (Get "/api/test" apiTest);
    Log "Setting up static file serving...";
    AppUse (Use (express_static (distPath w)));
    Log "Static file serving set up successfully" ].

(** Lines 112-128: [initDB], an async function whose promise resolves on
    both branches of its [try]/[catch]. *)
Definition initDB (r : SqlResult) : list Action :=
  [ SqlIssue; SqlSettle r ] ++
  match r with
  | inr _ => [ Log "Database initialized successfully" ]
  | inl _ => [ Log "Error initDB" ]
  end.

(** [PORT] as the string that ["..." + PORT] appends. *)
Definition portText (p : PortValue) : string :=
  match p with
  | PortString s => s
  | PortNumber n => DecimalString.NilZero.string_of_int (Z.to_int n)
  end.

(** Lines 154-178: the callback of [initDB().then(...)]. The last line is
    written by the callback of [app.listen], which runs once the server
    listens. *)
Definition afterInit (w : World) : list Action :=
  (if isProduction (processEnv w)
   then [ Log "Setting up catch-all route (production only)...";
          AppUse (Use catchAll);
          Log "Catch-all route set up successfully" ]
   else []) ++
  [ AppListen (PORT (processEnv w));
    Log ("Server is running on port " +:+ portText (PORT (processEnv w))) ].

(** The whole of [server.js] in the order its statements run. *)
Definition server (w : World) (r : SqlResult) : list Action :=
  topLevel w ++ initDB r ++ afterInit w.

(** The application's stack once the server listens. *)
Definition app (w : World) : list Layer := stack (run initial (server w (inr tt))).

(** The server's answer to a request, with the handlers that ran. *)
Definition serve (w : World) (req : Request) : list Handler * Response :=
  handle w (app w) req [].

(** The fallback stage is on the stack; the server listens. *)
Definition fallbackInstalled (s : Sys) : Prop := Use catchAll ∈ stack s.
Definition isListening (s : Sys) : Prop := is_Some (listening s).

(** ** Vocabulary of the statements *)

(** The controller a router gives a method and path to: the first route
    whose pattern matches the path and which handles the method. *)
Fixpoint findRoute (routes : list RouterRoute) (m : Method) (p : string)
    : option Controller :=
  match routes with
  | [] => None
  | r :: rest =>
      match PathMatch.matchRoute (routePattern r) p with
      | Some _ =>
          if handlesMethod (routeMethod r) m then Some (routeHandler r)
          else findRoute rest m p
      | None => findRoute rest m p
      end
  end.

(** A text with no ["/"] and no ["%"]: one path segment that needs no
    URI decoding. *)
Fixpoint plainSegment (s : string) : bool :=
  match s with
  | EmptyString => true
  | String c r =>
      negb (Ascii.eqb c PathMatch.slash) && negb (Ascii.eqb c "%") && plainSegment r
  end.

(** A value of the [:id] segment: one non-empty plain path segment. *)
Definition validId (id : string) : Prop := id <> "" /\ plainSegment id = true.

(** The five CRUD endpoints, as paths below the mount point of the router. *)
Definition exposesCrud (routes : list RouterRoute) : Prop :=
  is_Some (findRoute routes GET "/") /\
  is_Some (findRoute routes POST "/") /\
  forall id : string, validId id ->
    is_Some (findRoute routes GET ("/" +:+ id)) /\
    is_Some (findRoute routes PUT ("/" +:+ id)) /\
    is_Some (findRoute routes DELETE ("/" +:+ id)).

(** The path at which [server.js] mounts the product router (line 96). *)
Definition apiRoot : string := "/api/products".

(** The admission stages, lines 32-75. *)
Definition admission : list Handler :=
  [ express_json; cors; helmet {| contentSecurityPolicy := false |};
    morgan "dev"; arcjet ].

(** The alternatives of the dispatcher, lines 82-107. *)
Definition alternatives (w : World) : list Layer :=
  [ Get "/test-path" testPath;
    UseAt apiRoot (router productRoutes);
    Get "/api/test" apiTest;
    Use (express_static (distPath w)) ].


(** The layer matches the request (method and path). *)
Definition matches (l : Layer) (req : Request) : Prop :=
  exists req', layerMatch l req = Matched req'.

(** The layer lets the request go on: it does not match, or its handler
    calls [next()]. *)
Definition passes (w : World) (req : Request) (l : Layer) : bool :=
  match layerMatch l req with
  | Matched req' =>
      match runHandler w (layerHandler l) req' with
      | Pass => true
      | _ => false
      end
  | _ => true
  end.

(** No layer of the stack keeps the request (the request is unmatched). *)
Definition fallsThrough (w : World) (layers : list Layer) (req : Request) : bool :=
  forallb (passes w req) layers.

(** The fallback stage, when it is installed. *)
Definition fallback (w : World) : list Layer :=
  if isProduction (processEnv w) then [Use catchAll] else [].

(** The stack before the bootstrap callback runs. *)
Definition preFallback (w : World) : list Layer := stack (run initial (topLevel w)).

(** The two answers of the fallback stage. *)
Definition spaAnswer (w : World) : Response :=
  if existsSync w (indexPath w)
  then {| status := 200; body := FileBody (indexPath w) |}
  else {| status := 404; body := TextBody "Frontend build not found" |}.

(** Statements that neither install the fallback stage nor listen, and
    statements that leave the table-create statement alone. *)
Definition quiet (a : Action) : Prop :=
  match a with
  | AppUse l => l <> Use catchAll
  | AppListen _ => False
  | _ => True
  end.
Definition noSql (a : Action) : Prop :=
  match a with
  | SqlIssue | SqlSettle _ => False
  | _ => True
  end.

(** The script before and after the completion of the table-create
    statement. *)
Definition beforeSettle (w : World) : list Action := topLevel w ++ [SqlIssue].
Definition afterSettle (w : World) (r : SqlResult) : list Action :=
  match r with
  | inr _ => [ Log "Database initialized successfully" ]
  | inl _ => [ Log "Error initDB" ]
  end ++ afterInit w.

(** ** The import of the routes module, lines 12-19 and 96 *)

(** The statements of lines 32-95, up to the registration of the product
    routes, and those of lines 97-108 after it. *)
Definition beforeRoutes (w : World) : list Action :=
  [ AppUse (Use express_json);
    AppUse (Use cors);
    AppUse (Use (helmet {| contentSecurityPolicy := false |}));
    AppUse (Use (morgan "dev"));
    AppUse (Use arcjet);
    Log "Current __dirname:";
    Log "Looking for dist at:";
    AppUse (Get "/test-path" testPath);
    Log "About to register product routes..." ].

Definition afterRoutes (w : World) : list Action :=
  [ Log "Product routes registered successfully";
    AppUse (Get "/api/test" apiTest);
    Log "Setting up static file serving...";
    AppUse (Use (express_static (distPath w)));
    Log "Static file serving set up successfully" ].

(** Lines 12-19: [await import("./routes/productRoutes.js")] inside
    [try]/[catch]. A failed import is logged (with [console.error]) and
    leaves [productRoutes] undefined. *)
Definition importProductRoutes (imported : Error + list RouterRoute)
    : Action * option (list RouterRoute) :=
  match imported with
  | inr routes => (Log "Product routes imported successfully", Some routes)
  | inl _ => (Log "Error importing product routes:", None)
  end.

(** [app.use(prefix, fn)]: Express registers a function and throws a
    TypeError for anything else, [undefined] included. *)
Definition app_use_at (prefix : string) (fn : option (list RouterRoute))
    : Action + Error :=
  match fn with
  | Some routes => inl (AppUse (UseAt prefix (router routes)))
  | None => inr {| errMessage := "Router.use() requires a middleware function";
                   errStatus := None |}
  end.

(** The evaluation of the module: it runs to its end, or an exception that
    nothing catches ends it (and the process). *)
Inductive Evaluation :=
| Evaluated (script : list Action)
| Aborted (script : list Action) (e : Error).

Definition evaluate (imported : Error + list RouterRoute) (w : World)
    (r : SqlResult) : Evaluation :=
  let '(logged, productRoutes) := importProductRoutes imported in
  let before := logged :: beforeRoutes w in
  match app_use_at "/api/products" productRoutes with
  | inl use => Evaluated (before ++ use :: afterRoutes w ++ initDB r ++ afterInit w)
  | inr e => Aborted before e
  end.

Definition scriptOf (ev : Evaluation) : list Action :=
  match ev with Evaluated script | Aborted script _ => script end.

(** ** Further vocabulary *)

(** The route is for the method and path. *)
Definition routeMatches (m : Method) (p : string) (r : RouterRoute) : bool :=
  match PathMatch.matchRoute (routePattern r) p with
  | Some _ => handlesMethod (routeMethod r) m
  | None => false
  end.

(** All the routes of a router that are for the method and path. *)
Definition matching (routes : list RouterRoute) (m : Method) (p : string)
    : list RouterRoute :=
  List.filter (routeMatches m p) routes.

(** The five admission stages let the request through. *)
Definition admitted (w : World) (req : Request) : bool :=
  fallsThrough w (Use <$> admission) req.

(** The state of the server after the first [n] statements. *)
Definition stateAt (w : World) (r : SqlResult) (n : nat) : Sys :=
  run initial (take n (server w r)).

(** A field of a JSON response body. *)
Definition bodyField (name : string) (resp : Response) : option Json :=
  match body resp with
  | JsonBody (JObject fields) =>
      snd <$> List.find (fun f => String.eqb (fst f) name) fields
  | _ => None
  end.

(** The request as the product router sees it below its mount point. *)
Definition below (rest : string) (req : Request) : Request :=
  {| method := method req; path := rest; headers := headers req |}.

(** ** Sample worlds for concrete runs *)

Module Sample.

Definition env_production : gmap string string := {[ "NODE_ENV" := "production" ]}.
Definition env_development : gmap string string := {[ "NODE_ENV" := "development" ]}.

Definition allow : Arcjet.Decision :=
  {| Arcjet.conclusion := Arcjet.ALLOW; Arcjet.reason := Arcjet.OtherReason;
     Arcjet.results := [] |}.
Definition rateLimited : Arcjet.Decision :=
  {| Arcjet.conclusion := Arcjet.DENY; Arcjet.reason := Arcjet.RateLimitReason;
     Arcjet.results := [] |}.
Definition unreachable : Error :=
  {| errMessage := "fetch failed"; errStatus := None |}.

Definition aj_allow : Arcjet.Client := {| Arcjet.protect := fun _ _ => inr allow |}.
Definition aj_rateLimited : Arcjet.Client :=
  {| Arcjet.protect := fun _ _ => inr rateLimited |}.
Definition aj_down : Arcjet.Client := {| Arcjet.protect := fun _ _ => inl unreachable |}.

Definition request (m : Method) (p : string) : Request :=
  {| method := m; path := p; headers := ∅ |}.
Definition requestFrom (ua : string) (m : Method) (p : string) : Request :=
  {| method := m; path := p; headers := {[ "user-agent" := ua ]} |}.

(** A world in which the third-party middleware and the controllers let
    every request through or answer it with 200, nothing is in the
    static directory, and the entry document exists or not as given. *)
Definition world (env : gmap string string) (aj : Arcjet.Client)
    (built : bool) : World :=
  {| processEnv := env;
     dirname := "/app/backend";
     path_join := fun a b => a +:+ "/" +:+ b;
     path_dirname := fun _ => "/app/backend/../frontend/dist";
     existsSync := fun _ => built;
     readdirSync := fun _ => ["index.html"];
     staticFile := fun _ _ => None;
     aj := aj;
     jsonParser := fun _ => Pass;
     corsMiddleware := fun _ => Pass;
     helmetMiddleware := fun _ _ => Pass;
     morganMiddleware := fun _ _ => Pass;
     controller := fun _ _ _ => res_json [] |}.

(** The same world with a static directory that has a file for every path. *)
Definition world_with_assets (env : gmap string string) : World :=
  {| processEnv := env;
     dirname := "/app/backend";
     path_join := fun a b => a +:+ "/" +:+ b;
     path_dirname := fun _ => "/app/backend/../frontend/dist";
     existsSync := fun _ => true;
     readdirSync := fun _ => ["index.html"];
     staticFile := fun root p =>
       Some {| status := 200; body := FileBody (root +:+ p) |};
     aj := aj_allow;
     jsonParser := fun _ => Pass;
     corsMiddleware := fun _ => Pass;
     helmetMiddleware := fun _ _ => Pass;
     morganMiddleware := fun _ _ => Pass;
     controller := fun _ _ _ => res_json [] |}.

End Sample.

(** * Properties *)

(** ** JavaScript strings *)

Section JsStrings.

Lemma toLowerCase_app (a b : string) :
  Js.toLowerCase (a +:+ b) = Js.toLowerCase a +:+ Js.toLowerCase b.
Proof. induction a as [|c a IH]; simpl; [reflexivity | by rewrite IH]. Qed.

Lemma startsWith_app (p post : string) : Js.startsWith (p +:+ post) p = true.
Proof.
  induction p as [|c p IH]; simpl; [reflexivity|].
  rewrite Ascii.eqb_refl. exact IH.
Qed.

Lemma startsWith_inv (s p : string) :
  Js.startsWith s p = true -> exists post, s = p +:+ post.
Proof.
  revert s. induction p as [|c p IH]; intros s H.
  - exists s. reflexivity.
  - destruct s as [|b s]; simpl in H; [discriminate|].
    apply andb_prop in H as [Hc Hs].
    apply Ascii.eqb_eq in Hc. subst b.
    destruct (IH _ Hs) as [post ->]. exists post. reflexivity.
Qed.

Lemma includes_unfold (s t : string) :
  Js.includes s t =
  Js.startsWith s t ||
  match s with EmptyString => false | String _ s' => Js.includes s' t end.
Proof. by destruct s. Qed.

(** [includes] is the substring test. *)
Lemma includes_spec (s t : string) :
  Js.includes s t = true <-> exists pre post, s = pre +:+ t +:+ post.
Proof.
  split.
  - induction s as [|c s IH]; simpl; intros H.
    + rewrite orb_false_r in H. apply startsWith_inv in H as [post ->].
      exists EmptyString, post. reflexivity.
    + apply orb_prop in H as [H|H].
      * apply startsWith_inv in H as [post ->].
        exists EmptyString, post. reflexivity.
      * destruct (IH H) as (pre & post & ->).
        exists (String c pre), post. reflexivity.
  - intros (pre & post & ->).
    induction pre as [|c pre IH].
    + change (EmptyString +:+ t +:+ post) with (t +:+ post).
      rewrite includes_unfold, startsWith_app. reflexivity.
    + change (String c pre +:+ t +:+ post) with (String c (pre +:+ t +:+ post)).
      rewrite includes_unfold, IH. apply orb_true_r.
Qed.

Lemma orEmpty_None : Js.orEmpty None = EmptyString.
Proof. reflexivity. Qed.

Lemma orEmpty_Some (s : string) : Js.orEmpty (Some s) = s.
Proof. by destruct s. Qed.

End JsStrings.

(** ** The rate-limit stage *)

Section RateLimitStage.

Variable env : gmap string string.
Variable aj : Arcjet.Client.
Variable req : Request.

Lemma isProduction_spec :
  isProduction env = true <-> NODE_ENV env = Some "production".
Proof.
  unfold isProduction, Js.strictEq. destruct (NODE_ENV env) as [v|].
  - rewrite String.eqb_eq. split; congruence.
  - split; discriminate.
Qed.

Lemma isProduction_false :
  isProduction env = false <-> NODE_ENV env <> Some "production".
Proof.
  rewrite <- isProduction_spec. destruct (isProduction env); split; congruence.
Qed.

(** The two ways through the stage. *)
Lemma arcjet_bypass :
  isProduction env = false -> isTestTool (userAgent req) = true ->
  arcjetMiddleware env aj req = ([], Pass).
Proof. intros Hp Ht. unfold arcjetMiddleware. by rewrite Hp, Ht. Qed.

Lemma arcjet_consults :
  negb (isProduction env) && isTestTool (userAgent req) = false ->
  exists tail o, arcjetMiddleware env aj req = (AjProtect req costOne :: tail, o).
Proof.
  intros H. unfold arcjetMiddleware. rewrite H.
  unfold try_protect, emit. eauto.
Qed.

Lemma consulted_iff :
  consulted (arcjetMiddleware env aj req) = true <->
  negb (isProduction env) && isTestTool (userAgent req) = false.
Proof.
  destruct (negb (isProduction env) && isTestTool (userAgent req)) eqn:E.
  - apply andb_prop in E as [Hp Ht]. apply negb_true_iff in Hp.
    rewrite (arcjet_bypass Hp Ht). split; discriminate.
  - destruct (arcjet_consults E) as (tail & o & ->). split; reflexivity.
Qed.

(** What the stage does once the service has been called. *)
Lemma arcjet_after_call :
  consulted (arcjetMiddleware env aj req) = true ->
  snd (arcjetMiddleware env aj req) =
  match Arcjet.protect aj req costOne with
  | inl error => PassError error
  | inr decision =>
      if Arcjet.isDenied decision then
        if Arcjet.isRateLimit (Arcjet.reason decision) then
          res_status_json 429 [("error", JString "Too Many Requests")]
        else if Arcjet.isBot (Arcjet.reason decision) then
          res_status_json 403 [("error", JString "Bot access denied")]
        else res_status_json 403 [("error", JString "Forbidden")]
      else if existsb isSpoofedBot (Arcjet.results decision) then
        res_status_json 403 [("error", JString "Spoofed bot detected")]
      else Pass
  end.
Proof.
  intros H. apply consulted_iff in H.
  unfold arcjetMiddleware. rewrite H. unfold try_protect, costOne. simpl.
  destruct (Arcjet.protect aj req _) as [e|d]; [reflexivity|].
  repeat (match goal with |- context [if ?b then _ else _] => destruct b end);
    reflexivity.
Qed.

End RateLimitStage.

Lemma denies_json (code : Z) (msg : string) :
  denies (res_status_json code [("error", JString msg)]) code.
Proof.
  eexists. split; [reflexivity|]. simpl. exists (JString msg). by left.
Qed.

(** C2: the rate-limit stage is bypassed (control goes to the next stage and
    the decision service is not consulted) exactly when NODE_ENV is not
    'production' and the lower-cased User-Agent includes 'postman'; in
    production the request is submitted to the decision service, with a cost
    of one, whatever the header says. *)
Theorem arcjet_bypass_iff (env : gmap string string) (aj : Arcjet.Client)
    (req : Request) :
  (bypassed (arcjetMiddleware env aj req) <->
   NODE_ENV env <> Some "production" /\ isTestTool (userAgent req) = true)
  /\
  (NODE_ENV env = Some "production" ->
   exists tail o, arcjetMiddleware env aj req = (AjProtect req costOne :: tail, o)).
Proof.
  split.
  - rewrite <- isProduction_false. split.
    + intros [Hc _].
      destruct (negb (isProduction env) && isTestTool (userAgent req)) eqn:E.
      * apply andb_prop in E as [Hp Ht]. by apply negb_true_iff in Hp.
      * pose proof (proj2 (consulted_iff env aj req) E). congruence.
    + intros [Hp Ht]. rewrite (arcjet_bypass env aj req Hp Ht). by split.
  - intros Hprod. apply arcjet_consults.
    apply isProduction_spec in Hprod. by rewrite Hprod.
Qed.

(** In production a Postman request is sent to the decision service. *)
Lemma arcjet_bypass_iff_witness :
  exists tail o,
    arcjetMiddleware Sample.env_production Sample.aj_allow
      (Sample.requestFrom "PostmanRuntime/7.32.3" GET "/api/products")
    = (AjProtect (Sample.requestFrom "PostmanRuntime/7.32.3" GET "/api/products")
         costOne :: tail, o).
Proof.
  apply (proj2 (arcjet_bypass_iff Sample.env_production Sample.aj_allow
                  (Sample.requestFrom "PostmanRuntime/7.32.3" GET "/api/products"))).
  reflexivity.
Defined.

(** C3: for a request the decision service has evaluated: denied for a
    rate-limit reason gives 429; denied for a bot reason gives 403; denied
    for any other reason gives 403; allowed with a spoofed bot among the
    sub-results gives 403; otherwise control passes to the next stage. Every
    denial carries a JSON object with an [error] field. *)
Theorem arcjet_decision_outcomes (env : gmap string string)
    (aj : Arcjet.Client) (req : Request) (d : Arcjet.Decision) :
  consulted (arcjetMiddleware env aj req) = true ->
  Arcjet.protect aj req costOne = inr d ->
  let o := snd (arcjetMiddleware env aj req) in
  (Arcjet.isDenied d = true -> Arcjet.isRateLimit (Arcjet.reason d) = true ->
   denies o 429) /\
  (Arcjet.isDenied d = true -> Arcjet.isBot (Arcjet.reason d) = true ->
   denies o 403) /\
  (Arcjet.isDenied d = true -> Arcjet.isRateLimit (Arcjet.reason d) = false ->
   Arcjet.isBot (Arcjet.reason d) = false -> denies o 403) /\
  (Arcjet.isDenied d = false ->
   (exists result, In result (Arcjet.results d) /\
      Arcjet.isBot (Arcjet.ruleReason result) = true /\
      Arcjet.isSpoofed (Arcjet.ruleReason result) = true) ->
   denies o 403) /\
  (Arcjet.isDenied d = false ->
   (forall result, In result (Arcjet.results d) ->
      Arcjet.isBot (Arcjet.ruleReason result) = true ->
      Arcjet.isSpoofed (Arcjet.ruleReason result) = false) ->
   o = Pass).
Proof.
  intros Hc Hd o. subst o. rewrite (arcjet_after_call env aj req Hc), Hd.
  repeat split.
  - intros -> ->. apply denies_json.
  - intros -> Hb.
    destruct (Arcjet.reason d); try discriminate. simpl. apply denies_json.
  - intros -> -> ->. apply denies_json.
  - intros -> (result & Hin & Hb & Hs).
    assert (existsb isSpoofedBot (Arcjet.results d) = true) as ->.
    { apply existsb_exists. exists result. split; [done|].
      unfold isSpoofedBot. by rewrite Hb, Hs. }
    apply denies_json.
  - intros -> Hall.
    assert (existsb isSpoofedBot (Arcjet.results d) = false) as ->; [|done].
    apply not_true_is_false. intros (result & Hin & Hs)%existsb_exists.
    unfold isSpoofedBot in Hs. apply andb_prop in Hs as [Hb Hs].
    specialize (Hall result Hin Hb). congruence.
Qed.

(** A rate-limited decision gives 429. *)
Lemma arcjet_decision_outcomes_witness :
  denies (snd (arcjetMiddleware Sample.env_production Sample.aj_rateLimited
                 (Sample.request GET "/api/products"))) 429.
Proof.
  apply (arcjet_decision_outcomes Sample.env_production Sample.aj_rateLimited
           (Sample.request GET "/api/products") Sample.rateLimited);
    reflexivity.
Defined.

Lemma errorStatus_range (e : Error) : 400 <= errorStatus e < 600.
Proof.
  unfold errorStatus. destruct (errStatus e) as [s|]; [|lia].
  destruct ((400 <=? s) && (s <? 600)) eqn:E; [|lia].
  apply andb_prop in E as [H1 H2]. lia.
Qed.

(** C4: when the call to the decision service raises an error, the stage
    neither answers nor passes plain control on: it forwards the error
    ([next(error)]), every later layer is skipped and the final handler
    answers with an error status. *)
Theorem arcjet_fails_closed (env : gmap string string) (client : Arcjet.Client)
    (req : Request) (e : Error) :
  consulted (arcjetMiddleware env client req) = true ->
  Arcjet.protect client req costOne = inl e ->
  snd (arcjetMiddleware env client req) = PassError e /\
  forall (w : World) (rest : list Layer) (options : list Method),
    processEnv w = env -> aj w = client ->
    handle w (Use arcjet :: rest) req options = ([arcjet], finalhandler (Some e) req) /\
    400 <= status (finalhandler (Some e) req) < 600.
Proof.
  intros Hc He.
  assert (snd (arcjetMiddleware env client req) = PassError e) as Hout.
  { by rewrite (arcjet_after_call env client req Hc), He. }
  split; [exact Hout|].
  intros w rest options <- <-. split.
  - simpl. by rewrite Hout.
  - apply errorStatus_range.
Qed.

(** An unreachable decision service gives [next(error)]. *)
Lemma arcjet_fails_closed_witness :
  snd (arcjetMiddleware Sample.env_development Sample.aj_down
         (Sample.request GET "/api/products"))
  = PassError Sample.unreachable.
Proof.
  apply (arcjet_fails_closed Sample.env_development Sample.aj_down
           (Sample.request GET "/api/products") Sample.unreachable);
    reflexivity.
Defined.

Lemma containsIgnoringCase_isTestTool (ua : string) :
  containsIgnoringCase ua "postman" -> isTestTool ua = true.
Proof.
  intros (pre & mid & post & -> & Hmid). unfold isTestTool.
  apply includes_spec.
  exists (Js.toLowerCase pre), (Js.toLowerCase post).
  by rewrite !toLowerCase_app, Hmid.
Qed.

(** C10: a request without a User-Agent header has the empty string as its
    identifier and is never bypassed, whatever the environment; outside
    production, every User-Agent that contains 'postman' in any mix of
    upper and lower case (anywhere in the value) is bypassed. *)
Theorem user_agent_bypass (env : gmap string string) (client : Arcjet.Client)
    (req : Request) :
  (headers req !! "user-agent" = None ->
   userAgent req = "" /\ ~ bypassed (arcjetMiddleware env client req)) /\
  (forall ua : string,
     NODE_ENV env <> Some "production" ->
     headers req !! "user-agent" = Some ua ->
     containsIgnoringCase ua "postman" ->
     bypassed (arcjetMiddleware env client req)).
Proof.
  split.
  - intros Hnone.
    assert (userAgent req = "") as Hua by (unfold userAgent; by rewrite Hnone).
    split; [exact Hua|]. intros [Hc _].
    assert (consulted (arcjetMiddleware env client req) = true); [|congruence].
    apply consulted_iff. rewrite Hua. apply andb_false_r.
  - intros ua Henv Hua Hsig.
    apply isProduction_false in Henv.
    rewrite (arcjet_bypass env client req Henv); [by split|].
    unfold userAgent. rewrite Hua, orEmpty_Some.
    by apply containsIgnoringCase_isTestTool.
Qed.

(** In development: no header, no bypass; "POSTMAN" inside the value, bypass. *)
Lemma user_agent_bypass_witness :
  ~ bypassed (arcjetMiddleware Sample.env_development Sample.aj_allow
                (Sample.request GET "/api/products")) /\
  bypassed (arcjetMiddleware Sample.env_development Sample.aj_allow
              (Sample.requestFrom "Mozilla/5.0 POSTMAN-Runtime" GET "/api/products")).
Proof.
  split.
  - apply (proj1 (user_agent_bypass Sample.env_development Sample.aj_allow
                    (Sample.request GET "/api/products"))).
    reflexivity.
  - apply (proj2 (user_agent_bypass Sample.env_development Sample.aj_allow
                    (Sample.requestFrom "Mozilla/5.0 POSTMAN-Runtime" GET "/api/products"))
             "Mozilla/5.0 POSTMAN-Runtime").
    + discriminate.
    + reflexivity.
    + exists "Mozilla/5.0 ", "POSTMAN", "-Runtime". split; reflexivity.
Defined.

(** ** The product router *)

Section Routers.

Lemma takeSegment_plain (s : string) :
  plainSegment s = true -> PathMatch.takeSegment s = (s, EmptyString).
Proof.
  induction s as [|c s IH]; simpl; [reflexivity|].
  intros [[Hc _]%andb_prop Hs]%andb_prop. apply negb_true_iff in Hc.
  rewrite Hc, (IH Hs). reflexivity.
Qed.

(** ["/:id"] takes every single-segment path and binds the segment. *)
Lemma matchRoute_id (id : string) :
  validId id -> PathMatch.matchRoute "/:id" ("/" +:+ id) = Some [("id", id)].
Proof.
  intros [Hne Hns].
  change (PathMatch.matchRoute "/:id" ("/" +:+ id))
    with (let '(seg, rest) := PathMatch.takeSegment id in
          match seg with
          | EmptyString => None
          | _ => option_map (cons ("id", seg)) (PathMatch.matchTokens [] rest)
          end).
  rewrite (takeSegment_plain id Hns). by destruct id.
Qed.

(** ["/"] takes no path with a segment. *)
Lemma matchRoute_root (id : string) :
  id <> "" -> PathMatch.matchRoute "/" ("/" +:+ id) = None.
Proof. by destruct id. Qed.

(** A request no route of the router is for never reaches a controller. *)
Lemma routerHandle_unrouted
    (c1 c2 : Controller -> Request -> list (string * string) -> Outcome)
    (routes : list RouterRoute) (req : Request) (options : list Method) :
  findRoute routes (method req) (path req) = None ->
  routerHandle c1 routes req options = routerHandle c2 routes req options.
Proof.
  revert options. induction routes as [|r rest IH]; intros options H; [done|].
  simpl in *. destruct (PathMatch.matchRoute _ _); [|by apply IH].
  destruct (handlesMethod _ _); [done | by apply IH].
Qed.

Lemma routerHandle_unrouted_pass
    (c : Controller -> Request -> list (string * string) -> Outcome)
    (routes : list RouterRoute) (req : Request) (options : list Method) :
  findRoute routes (method req) (path req) = None ->
  method req <> OPTIONS ->
  routerHandle c routes req options = Pass.
Proof.
  intros H Hm. revert options H.
  induction routes as [|r rest IH]; intros options H; simpl in *.
  - unfold routerDone. destruct options; [done|]. by rewrite bool_decide_eq_false_2.
  - destruct (PathMatch.matchRoute _ _); [|by apply IH].
    destruct (handlesMethod _ _); [done | by apply IH].
Qed.

(** The router of the second routes file has all five endpoints. *)
Lemma part_000_exposesCrud : exposesCrud productRoutes_part_000.
Proof.
  split; [by eexists|]. split; [by eexists|].
  intros id Hid. pose proof (matchRoute_id id Hid) as Hm.
  pose proof (matchRoute_root id (proj1 Hid)) as Hr.
  unfold productRoutes_part_000, findRoute, routePattern, routeMethod, routeHandler.
  rewrite Hm, Hr. repeat split; by eexists.
Qed.

End Routers.

(** C1, on the code: the router that [server.js] imports and mounts at
    /api/products has the two routes GET / and POST / only. For every id it
    gives GET, PUT and DELETE /api/products/:id to no handler, so it does
    not expose the five endpoints, although the router of the repository's
    other routes file does; GET /api/products/1 falls through the router to
    the final handler's 404. *)
Theorem imported_router_lacks_id_routes :
  (forall w : World, UseAt apiRoot (router productRoutes) ∈ app w) /\
  is_Some (findRoute productRoutes GET "/") /\
  is_Some (findRoute productRoutes POST "/") /\
  (forall (m : Method) (id : string), id <> "" ->
     findRoute productRoutes m ("/" +:+ id) = None) /\
  ~ exposesCrud productRoutes /\
  exposesCrud productRoutes_part_000 /\
  PathMatch.matchMount apiRoot "/api/products/1" = Some "/1" /\
  snd (serve (Sample.world Sample.env_development Sample.aj_allow true)
         (Sample.request GET "/api/products/1"))
  = finalhandler None (Sample.request GET "/api/products/1").
Proof.
  assert (forall (m : Method) (id : string), id <> "" ->
            findRoute productRoutes m ("/" +:+ id) = None) as Hnone.
  { intros m id Hid. pose proof (matchRoute_root id Hid) as Hr.
    unfold productRoutes, findRoute, routePattern. by rewrite Hr. }
  split; [|split; [by eexists|split; [by eexists|split; [exact Hnone|split; [|split]]]]].
  - intros w. unfold app, server, afterInit.
    destruct (isProduction (processEnv w)); vm_compute; set_solver.
  - intros (_ & _ & Hid). destruct (Hid "1") as [[c Hc] _]; [by split|].
    rewrite (Hnone GET "1") in Hc; done.
  - exact part_000_exposesCrud.
  - split; reflexivity.
Qed.

(** ** Dispatch *)

Section Dispatch.

Variable w : World.
Variable req : Request.

(** The stack the script builds. *)
Lemma preFallback_eq : preFallback w = (Use <$> admission) ++ alternatives w.
Proof. reflexivity. Qed.

Lemma app_eq : app w = (Use <$> admission) ++ alternatives w ++ fallback w.
Proof.
  unfold app, server, afterInit, fallback.
  destruct (isProduction (processEnv w)); reflexivity.
Qed.

(** Handlers run in registration order, each at most once. *)
Lemma handle_sublist (layers : list Layer) (options : list Method) :
  fst (handle w layers req options) `sublist_of` (layerHandler <$> layers).
Proof.
  revert options. induction layers as [|l rest IH]; intros options; simpl.
  - constructor.
  - destruct (layerMatch l req) as [|m|req'].
    + apply sublist_cons, IH.
    + apply sublist_cons, IH.
    + destruct (runHandler w (layerHandler l) req') as [|e|resp].
      * specialize (IH options).
        destruct (handle w rest req options) as [hs resp]. simpl in *.
        by apply sublist_skip.
      * apply sublist_skip, sublist_nil_l.
      * apply sublist_skip, sublist_nil_l.
Qed.


(** A request that falls through a stack goes on with what follows it. *)
Lemma handle_fallsThrough (pre : list Layer) :
  fallsThrough w pre req = true ->
  forall options, exists visited options',
    (method req <> OPTIONS -> options' = options) /\
    forall post,
      handle w (pre ++ post) req options =
      (visited ++ fst (handle w post req options'),
       snd (handle w post req options')).
Proof.
  induction pre as [|a pre IH]; intros Hft options.
  - exists [], options. split; [done|]. intros post. simpl.
    by destruct (handle w post req options).
  - simpl in Hft. apply andb_prop in Hft as [Ha Hft]. unfold passes in Ha.
    simpl. destruct (layerMatch a req) as [|m|req'].
    + apply (IH Hft).
    + destruct (IH Hft (collectOptions req options m)) as (vis & o' & Ho & H).
      exists vis, o'. split; [|done].
      intros Hm. rewrite (Ho Hm). unfold collectOptions.
      by rewrite bool_decide_eq_false_2.
    + destruct (runHandler w (layerHandler a) req') as [|e|resp]; try discriminate.
      destruct (IH Hft options) as (vis & o' & Ho & H).
      exists (layerHandler a :: vis), o'. split; [done|].
      intros post. by rewrite H.
Qed.

Lemma appDone_not_options (options : list Method) :
  method req <> OPTIONS -> appDone req options = finalhandler None req.
Proof.
  intros Hm. unfold appDone, routerDone.
  destruct options; [done|]. by rewrite bool_decide_eq_false_2.
Qed.

End Dispatch.

Lemma handle_Use (w : World) (req : Request) (h : Handler) (rest : list Layer)
    (options : list Method) :
  handle w (Use h :: rest) req options =
  match runHandler w h req with
  | Pass => (h :: fst (handle w rest req options), snd (handle w rest req options))
  | PassError e => ([h], finalhandler (Some e) req)
  | Reply resp => ([h], resp)
  end.
Proof.
  simpl. destruct (runHandler w h req); [|done..].
  by destruct (handle w rest req options).
Qed.

(** The whole stack, layer by layer. *)
Lemma app_layers (w : World) :
  app w = Use express_json :: Use cors
          :: Use (helmet {| contentSecurityPolicy := false |})
          :: Use (morgan "dev") :: Use arcjet
          :: Get "/test-path" testPath :: UseAt apiRoot (router productRoutes)
          :: Get "/api/test" apiTest :: Use (express_static (distPath w))
          :: fallback w.
Proof. apply app_eq. Qed.

(** Membership of a handler in a list of handlers that all differ from it
    by their constructor. *)
Ltac other_handlers :=
  let H := fresh "Hin" in
  intros H; apply list_elem_of_In in H; simpl in H; intuition discriminate.

Lemma routing_not_admission (w : World) :
  Forall (fun l => layerHandler l ∉ admission) (alternatives w ++ fallback w).
Proof.
  unfold fallback, alternatives, admission.
  destruct (isProduction (processEnv w)); simpl;
    repeat (apply Forall_cons; split; [other_handlers|]); apply Forall_nil_2.
Qed.

Lemma app_handlers_NoDup (w : World) : NoDup (layerHandler <$> app w).
Proof.
  rewrite app_layers. unfold fallback.
  destruct (isProduction (processEnv w)); simpl;
    repeat (apply NoDup_cons_2; [other_handlers|]); apply NoDup_nil_2.
Qed.

(** ** Which layers run, and where the chain ends *)

Lemma forall_below_cons {A : Type} (P : A -> Prop) (x : A) (l : list A) (k : nat) :
  (forall j y, (j < S k)%nat -> (x :: l) !! j = Some y -> P y) <->
  P x /\ forall j y, (j < k)%nat -> l !! j = Some y -> P y.
Proof.
  split.
  - intros H. split.
    + apply (H 0%nat x); [lia | done].
    + intros j y Hj Hy. apply (H (S j) y); [lia | done].
  - intros [Hx H] [|j] y Hj Hy; simpl in Hy.
    + by injection Hy as <-.
    + apply (H j y); [lia | done].
Qed.


Section Runs.

Variable w : World.
Variable req : Request.

Lemma passes_Use (h : Handler) :
  passes w req (Use h) = true <-> runHandler w h req = Pass.
Proof.
  unfold passes. simpl. destruct (runHandler w h req); split; done.
Qed.

(** A layer runs exactly when it matches the request and every layer
    registered before it does not match or calls [next()]. *)
Lemma handle_runs_iff (layers : list Layer) :
  NoDup (layerHandler <$> layers) ->
  forall (options : list Method) (k : nat) (l : Layer),
    layers !! k = Some l ->
    (layerHandler l ∈ fst (handle w layers req options) <->
     matches l req /\
     forall j l', (j < k)%nat -> layers !! j = Some l' -> passes w req l' = true).
Proof.
  induction layers as [|l0 rest IH]; intros Hnd options k l Hk; [done|].
  rewrite fmap_cons in Hnd. apply NoDup_cons in Hnd as [Hnot Hnd].
  destruct k as [|k]; simpl in Hk.
  - injection Hk as ->. split.
    + intros Hin. split; [|intros j l' Hj; lia].
      unfold matches. simpl in Hin.
      destruct (layerMatch l req) as [|m|req']; [| |by eexists]; exfalso;
        apply Hnot; apply (elem_of_sublist _ _ _ Hin), handle_sublist.
    + intros [[req' Hm] _]. simpl. rewrite Hm.
      destruct (runHandler w (layerHandler l) req');
        [destruct (handle w rest req options)|..]; simpl; by left.
  - assert (layerHandler l ∈ layerHandler <$> rest) as Hl.
    { apply list_elem_of_fmap_2. by apply list_elem_of_lookup_2 in Hk. }
    assert (layerHandler l <> layerHandler l0) as Hne.
    { intros Heq. by rewrite Heq in Hl. }
    rewrite forall_below_cons. unfold passes at 1. simpl.
    destruct (layerMatch l0 req) as [|m|req0].
    + rewrite (IH Hnd options k l Hk). tauto.
    + rewrite (IH Hnd _ k l Hk). tauto.
    + destruct (runHandler w (layerHandler l0) req0).
      * pose proof (IH Hnd options k l Hk) as Hrest.
        destruct (handle w rest req options) as [hs resp]. simpl in *.
        rewrite elem_of_cons, Hrest. split; [|tauto].
        intros [Heq | H]; [done | tauto].
      * simpl. rewrite list_elem_of_singleton. split; [done|].
        intros (_ & H & _). discriminate.
      * simpl. rewrite list_elem_of_singleton. split; [done|].
        intros (_ & H & _). discriminate.
Qed.

(** The first layer that matches and does not call [next()] ends the
    chain: it is the last handler that runs, and its response, or the final
    handler's answer to the error it forwards, is the server's response. *)
Lemma handle_stops_at (layers : list Layer) :
  forall (options : list Method) (k : nat) (l : Layer) (req' : Request),
    layers !! k = Some l ->
    (forall j l', (j < k)%nat -> layers !! j = Some l' -> passes w req l' = true) ->
    layerMatch l req = Matched req' ->
    runHandler w (layerHandler l) req' <> Pass ->
    last (fst (handle w layers req options)) = Some (layerHandler l) /\
    (forall resp, runHandler w (layerHandler l) req' = Reply resp ->
       snd (handle w layers req options) = resp) /\
    (forall e, runHandler w (layerHandler l) req' = PassError e ->
       snd (handle w layers req options) = finalhandler (Some e) req).
Proof.
  induction layers as [|l0 rest IH]; intros options k l req' Hk Hbefore Hm Hout;
    [done|].
  destruct k as [|k]; simpl in Hk.
  - injection Hk as ->. simpl. rewrite Hm.
    destruct (runHandler w (layerHandler l) req'); [done|..];
      repeat split; intros; simpl; congruence.
  - apply forall_below_cons in Hbefore as [H0 Hbefore].
    unfold passes in H0. simpl.
    destruct (layerMatch l0 req) as [|m|req0].
    + by apply (IH options k l req').
    + by apply (IH _ k l req').
    + destruct (runHandler w (layerHandler l0) req0); try discriminate H0.
      destruct (IH options k l req' Hk Hbefore Hm Hout) as (Hlast & Hreply & Herr).
      destruct (handle w rest req options) as [hs resp]. simpl in *.
      split; [|by split]. rewrite last_cons, Hlast. done.
Qed.

(** Stages registered with [app.use(fn)]: the chain runs them up to the
    first that does not call [next()]. *)
Lemma stages_stop (stages : list Handler) (post : list Layer) :
  forall (options : list Method) (k : nat) (h : Handler),
    stages !! k = Some h ->
    (forall j h', (j < k)%nat -> stages !! j = Some h' -> runHandler w h' req = Pass) ->
    runHandler w h req <> Pass ->
    fst (handle w ((Use <$> stages) ++ post) req options) = take (S k) stages.
Proof.
  induction stages as [|h0 rest IH]; intros options k h Hk Hbefore Hout; [done|].
  rewrite fmap_cons, <- app_comm_cons, handle_Use.
  destruct k as [|k]; simpl in Hk.
  - injection Hk as ->. by destruct (runHandler w h req).
  - apply forall_below_cons in Hbefore as [H0 Hbefore]. rewrite H0. simpl.
    by rewrite (IH options k h Hk Hbefore Hout).
Qed.

Lemma stages_pass (stages : list Handler) (post : list Layer)
    (options : list Method) :
  (forall h, h ∈ stages -> runHandler w h req = Pass) ->
  handle w ((Use <$> stages) ++ post) req options =
  (stages ++ fst (handle w post req options), snd (handle w post req options)).
Proof.
  induction stages as [|h0 rest IH]; intros Hall.
  - simpl. by destruct (handle w post req options).
  - rewrite fmap_cons, <- app_comm_cons, handle_Use.
    rewrite (Hall h0) by by left. rewrite IH; [done|].
    intros h Hh. apply Hall. by right.
Qed.

(** The layers before an admission stage are admission stages. *)
Lemma admission_before (k : nat) (h : Handler) :
  admission !! k = Some h ->
  (forall j h', (j < k)%nat -> admission !! j = Some h' -> runHandler w h' req = Pass) ->
  app w !! k = Some (Use h) /\
  forall j l', (j < k)%nat -> app w !! j = Some l' -> passes w req l' = true.
Proof.
  intros Hk Hbefore. rewrite app_eq. split.
  - apply lookup_app_l_Some. by rewrite list_lookup_fmap, Hk.
  - intros j l' Hj Hl'. apply lookup_lt_Some in Hk.
    rewrite lookup_app_l in Hl' by (rewrite length_fmap; lia).
    rewrite list_lookup_fmap in Hl'.
    destruct (admission !! j) as [h'|] eqn:E; [|done].
    injection Hl' as <-. apply passes_Use. by apply (Hbefore j).
Qed.


End Runs.

(** C7: the first five layers of the application, in registration order,
    are body parsing, CORS, the security headers with
    content-security-policy disabled, access logging and the rate-limit
    stage, and every layer after them is a routing layer. Every request goes
    through them in this order before routing: the first stage always runs,
    and each later stage runs exactly when all the stages before it have
    called [next()]. A request that all five pass goes on to the routing
    layers, whose handlers run after the five; a stage that answers or
    forwards an error is the last handler to run, and its response (or the
    final handler's answer to its error) is the server's response. *)
Theorem admission_order (w : World) (req : Request) :
  (exists routing,
     app w = [ Use express_json; Use cors;
               Use (helmet {| contentSecurityPolicy := false |});
               Use (morgan "dev"); Use arcjet ] ++ routing /\
     Forall (fun l => layerHandler l ∉ admission) routing /\
     ((forall h, h ∈ admission -> runHandler w h req = Pass) ->
      serve w req = (admission ++ fst (handle w routing req []),
                     snd (handle w routing req [])))) /\
  (fst (serve w req) `prefix_of` admission \/
   exists later,
     fst (serve w req) = admission ++ later /\
     Forall (fun h => h ∉ admission) later) /\
  head (fst (serve w req)) = Some express_json /\
  (forall k h, admission !! k = Some h ->
     (h ∈ fst (serve w req) <->
      forall j h', (j < k)%nat -> admission !! j = Some h' ->
                   runHandler w h' req = Pass)) /\
  (forall k h, admission !! k = Some h ->
     (forall j h', (j < k)%nat -> admission !! j = Some h' ->
                   runHandler w h' req = Pass) ->
     runHandler w h req <> Pass ->
     fst (serve w req) = take (S k) admission /\
     (forall resp, runHandler w h req = Reply resp -> snd (serve w req) = resp) /\
     (forall e, runHandler w h req = PassError e ->
        snd (serve w req) = finalhandler (Some e) req)).
Proof.
  split; [|split; [|split; [|split]]].
  - exists (alternatives w ++ fallback w). split; [apply app_eq|].
    split; [apply routing_not_admission|].
    intros Hall. unfold serve. rewrite app_eq. by apply stages_pass.
  - unfold serve. rewrite app_layers. unfold admission.
    rewrite handle_Use.
    destruct (runHandler w express_json req);
      [|left; by eexists..].
    rewrite handle_Use.
    destruct (runHandler w cors req); [|left; by eexists..].
    rewrite handle_Use.
    destruct (runHandler w (helmet _) req); [|left; by eexists..].
    rewrite handle_Use.
    destruct (runHandler w (morgan _) req); [|left; by eexists..].
    rewrite handle_Use.
    destruct (runHandler w arcjet req); [|left; by eexists..].
    right. eexists. split; [reflexivity|]. simpl.
    pose proof (handle_sublist w req
                  (Get "/test-path" testPath :: UseAt apiRoot (router productRoutes)
                   :: Get "/api/test" apiTest :: Use (express_static (distPath w))
                   :: fallback w) []) as Hsub.
    pose proof (routing_not_admission w) as Hall.
    apply Forall_forall. intros h Hh.
    apply (elem_of_sublist _ _ _ Hh) in Hsub. clear Hh. rename Hsub into Hh.
    apply list_elem_of_fmap in Hh as (l & -> & Hl).
    rewrite Forall_forall in Hall. by apply Hall.
  - unfold serve. rewrite app_layers, handle_Use.
    by destruct (runHandler w express_json req).
  - intros k h Hk.
    assert (app w !! k = Some (Use h)) as Happ.
    { rewrite app_eq. apply lookup_app_l_Some. by rewrite list_lookup_fmap, Hk. }
    pose proof (handle_runs_iff w req (app w) (app_handlers_NoDup w) [] k (Use h) Happ)
      as Hrun.
    simpl in Hrun. unfold serve. rewrite Hrun. split.
    + intros [_ Hbefore] j h' Hj Hh'. apply passes_Use.
      apply (Hbefore j (Use h') Hj).
      rewrite app_eq. apply lookup_app_l_Some. by rewrite list_lookup_fmap, Hh'.
    + intros Hbefore. split; [by eexists|].
      by apply (admission_before w req k h).
  - intros k h Hk Hbefore Hout.
    destruct (admission_before w req k h Hk Hbefore) as [Happ Hpasses].
    destruct (handle_stops_at w req (app w) [] k (Use h) req Happ Hpasses eq_refl Hout)
      as (_ & Hreply & Herr).
    split; [|by split].
    unfold serve. rewrite app_eq.
    by apply (stages_stop w req admission _ [] k h).
Qed.

(** A rate-limited request runs the five stages and nothing else, and gets
    the 429. *)
Lemma admission_order_witness :
  fst (serve (Sample.world Sample.env_production Sample.aj_rateLimited true)
         (Sample.request GET "/api/products"))
  = take 5 admission /\
  snd (serve (Sample.world Sample.env_production Sample.aj_rateLimited true)
         (Sample.request GET "/api/products"))
  = {| status := 429;
       body := JsonBody (JObject [("error", JString "Too Many Requests")]) |}.
Proof.
  destruct (admission_order
              (Sample.world Sample.env_production Sample.aj_rateLimited true)
              (Sample.request GET "/api/products")) as (_ & _ & _ & _ & Hstop).
  destruct (Hstop 4%nat arcjet eq_refl) as (Hran & Hreply & _).
  - intros [|[|[|[|j]]]] h' Hj Hh'; try lia; by injection Hh' as <-.
  - discriminate.
  - split; [exact Hran|]. by apply Hreply.
Defined.






Lemma catchAll_answers (w : World) (req : Request) :
  Js.startsWith (path req) "/api/" = false ->
  path req <> "/test-path" ->
  runHandler w catchAll req = Reply (spaAnswer w).
Proof.
  intros Hapi Htest. apply String.eqb_neq in Htest.
  simpl. unfold catchAllMiddleware, Js.strictEq, spaAnswer.
  rewrite Hapi, Htest. simpl. by destruct (existsSync w (indexPath w)).
Qed.

(** C5, as the claim states it, with the API root /api/products of the
    router's mount: in production GET /api/foo is not below the API root, is
    not the diagnostic path and no earlier layer answers it, yet the
    fallback stage skips it (it starts with /api/) and the final handler
    answers 404 although the entry document exists. *)
Lemma fallback_skips_api_paths :
  ~ (forall (w : World) (req : Request),
       isProduction (processEnv w) = true ->
       fallsThrough w (preFallback w) req = true ->
       Js.startsWith (path req) apiRoot = false ->
       path req <> "/test-path" ->
       snd (serve w req) = spaAnswer w).
Proof.
  intros H.
  assert ("/api/foo" <> "/test-path") as Hne by discriminate.
  specialize (H (Sample.world Sample.env_production Sample.aj_allow true)
                (Sample.request GET "/api/foo")
                eq_refl eq_refl eq_refl Hne).
  discriminate H.
Qed.

(** C5, amended: in production, every request that no earlier layer answers
    and whose path neither starts with /api/ nor equals /test-path is
    answered by the fallback stage, with the entry document when the file
    exists and with 404 and the text "Frontend build not found" otherwise.
    Outside production the fallback stage is not on the stack and never
    runs; a request (other than OPTIONS) that no layer answers gets the
    final handler's 404. *)
Theorem fallback_stage (w : World) (req : Request) :
  (isProduction (processEnv w) = true ->
   fallsThrough w (preFallback w) req = true ->
   Js.startsWith (path req) "/api/" = false ->
   path req <> "/test-path" ->
   snd (serve w req) =
     (if existsSync w (indexPath w)
      then {| status := 200; body := FileBody (indexPath w) |}
      else {| status := 404; body := TextBody "Frontend build not found" |}) /\
   last (fst (serve w req)) = Some catchAll) /\
  (isProduction (processEnv w) = false ->
   (Use catchAll ∉ app w) /\
   (catchAll ∉ fst (serve w req)) /\
   (fallsThrough w (preFallback w) req = true -> method req <> OPTIONS ->
    snd (serve w req) = finalhandler None req)).
Proof.
  split.
  - intros Hprod Hft Hapi Htest.
    assert (app w = preFallback w ++ [Use catchAll]) as Happ.
    { rewrite app_eq, preFallback_eq. unfold fallback. rewrite Hprod.
      by rewrite app_assoc. }
    destruct (handle_fallsThrough w req (preFallback w) Hft [])
      as (visited & options' & _ & Hrun).
    unfold serve. rewrite Happ, Hrun, handle_Use.
    rewrite (catchAll_answers w req Hapi Htest). simpl.
    split; [reflexivity | apply last_snoc].
  - intros Hdev.
    assert (app w = preFallback w ++ []) as Happ.
    { rewrite app_eq, preFallback_eq. unfold fallback. rewrite Hdev.
      by rewrite app_assoc. }
    assert (catchAll ∉ layerHandler <$> app w) as Hnot.
    { rewrite app_layers. unfold fallback. rewrite Hdev. other_handlers. }
    split; [|split].
    + intros Hin. apply Hnot.
      by apply (list_elem_of_fmap_2 layerHandler) in Hin.
    + intros Hin. apply Hnot.
      apply (elem_of_sublist _ _ _ Hin). apply handle_sublist.
    + intros Hft Hmeth.
      destruct (handle_fallsThrough w req (preFallback w) Hft [])
        as (visited & options' & _ & Hrun).
      unfold serve. rewrite Happ, Hrun. simpl.
      by apply appDone_not_options.
Qed.

(** GET /about: the entry document in production; no fallback layer in
    development. *)
Lemma fallback_stage_witness :
  snd (serve (Sample.world Sample.env_production Sample.aj_allow true)
         (Sample.request GET "/about"))
  = {| status := 200; body := FileBody "/app/backend/../frontend/dist/index.html" |}
  /\ Use catchAll ∉ app (Sample.world Sample.env_development Sample.aj_allow true).
Proof.
  split.
  - apply (proj1 (fallback_stage
                    (Sample.world Sample.env_production Sample.aj_allow true)
                    (Sample.request GET "/about")));
      [reflexivity | reflexivity | reflexivity | discriminate].
  - apply (proj2 (fallback_stage
                    (Sample.world Sample.env_development Sample.aj_allow true)
                    (Sample.request GET "/about"))).
    reflexivity.
Defined.

(** ** Bootstrap *)

Section Bootstrap.

Lemma run_app (s : Sys) (a b : list Action) : run s (a ++ b) = run (run s a) b.
Proof. apply fold_left_app. Qed.

(** Quiet statements neither install the fallback stage nor listen. *)
Lemma quiet_run (script : list Action) (s : Sys) :
  Forall quiet script ->
  ~ fallbackInstalled s -> ~ isListening s ->
  ~ fallbackInstalled (run s script) /\ ~ isListening (run s script).
Proof.
  revert s. induction script as [|a script IH]; intros s Hq Hf Hl; [done|].
  apply Forall_cons in Hq as [Ha Hq]. simpl. apply (IH _ Hq).
  - destruct a; simpl in *; try done.
    unfold fallbackInstalled. simpl. intros [Hin|Hin]%elem_of_app; [done|].
    apply list_elem_of_singleton in Hin. congruence.
  - destruct a; simpl in *; done.
Qed.

(** Statements other than the table-create statement leave its state. *)
Lemma noSql_run (script : list Action) (s : Sys) :
  Forall noSql script -> tableCreate (run s script) = tableCreate s.
Proof.
  revert s. induction script as [|a script IH]; intros s Hq; [done|].
  apply Forall_cons in Hq as [Ha Hq]. simpl. rewrite (IH _ Hq).
  by destruct a.
Qed.

Variable w : World.
Variable r : SqlResult.

Lemma server_split :
  server w r = beforeSettle w ++ SqlSettle r :: afterSettle w r.
Proof.
  unfold server, initDB, beforeSettle, afterSettle.
  by rewrite <- !app_assoc.
Qed.

Lemma beforeSettle_quiet : Forall quiet (beforeSettle w).
Proof.
  unfold beforeSettle, topLevel.
  repeat (apply Forall_cons; split; [by simpl|]). apply Forall_nil_2.
Qed.

Lemma afterSettle_noSql : Forall noSql (afterSettle w r).
Proof.
  unfold afterSettle, afterInit.
  destruct r, (isProduction (processEnv w)); simpl;
    repeat (apply Forall_cons; split; [by simpl|]); apply Forall_nil_2.
Qed.

(** Every state the script goes through. *)
Lemma reachable_safe (n : nat) :
  let s := run initial (take n (server w r)) in
  fallbackInstalled s \/ isListening s -> tableCreate s = Finished r.
Proof.
  intros s Hs. subst s. revert Hs.
  rewrite server_split, take_app.
  destruct (n - length (beforeSettle w))%nat as [|k] eqn:Hn.
  - rewrite take_0, app_nil_r. intros Hs. exfalso.
    destruct (quiet_run (take n (beforeSettle w)) initial) as [Hf Hl].
    + apply Forall_take, beforeSettle_quiet.
    + unfold fallbackInstalled. simpl. apply not_elem_of_nil.
    + unfold isListening. simpl. by intros [? ?].
    + tauto.
  - intros _. rewrite firstn_cons, run_app. simpl.
    rewrite noSql_run; [reflexivity|].
    apply Forall_take, afterSettle_noSql.
Qed.

Lemma final_state :
  let final := run initial (server w r) in
  tableCreate final = Finished r /\
  listening final = Some (PORT (processEnv w)) /\
  stack final = app w.
Proof.
  unfold app, server, initDB, afterInit.
  destruct r, (isProduction (processEnv w)); by vm_compute.
Qed.

End Bootstrap.

(** C8: in every state the bootstrap goes through, the fallback stage is on
    the stack or the server listens only if the table-create statement has
    finished; the statement is issued before it finishes, and once the
    script has run the statement has finished, the server listens on the
    configured port and, in production, the fallback stage is installed. *)
Theorem bootstrap_order (w : World) (r : SqlResult) :
  (forall n : nat,
     let s := run initial (take n (server w r)) in
     fallbackInstalled s \/ isListening s -> tableCreate s = Finished r) /\
  (exists before after,
     server w r = before ++ SqlIssue :: SqlSettle r :: after /\
     Forall quiet before /\ Forall noSql before /\ Forall noSql after) /\
  (let final := run initial (server w r) in
   tableCreate final = Finished r /\
   listening final = Some (PORT (processEnv w)) /\
   (isProduction (processEnv w) = true -> fallbackInstalled final)).
Proof.
  split; [apply reachable_safe|]. split.
  - exists (topLevel w), (afterSettle w r). split; [|split; [|split]].
    + unfold server, initDB, afterSettle. by rewrite <- !app_assoc.
    + pose proof (beforeSettle_quiet w) as H.
      by apply Forall_app in H as [H _].
    + unfold topLevel.
      repeat (apply Forall_cons; split; [by simpl|]). apply Forall_nil_2.
    + apply afterSettle_noSql.
  - pose proof (final_state w r) as Hfinal. cbv zeta in Hfinal |- *.
    destruct Hfinal as (Ht & Hl & Hs).
    split; [exact Ht|]. split; [exact Hl|].
    intros Hprod. unfold fallbackInstalled. rewrite Hs, app_layers.
    unfold fallback. rewrite Hprod.
    apply list_elem_of_In. simpl. tauto.
Qed.

(** After the whole production script the server listens and the statement
    has finished. *)
Lemma bootstrap_order_witness :
  tableCreate
    (run initial
       (server (Sample.world Sample.env_production Sample.aj_allow true) (inr tt)))
  = Finished (inr tt).
Proof.
  apply (proj1 (bootstrap_order
                  (Sample.world Sample.env_production Sample.aj_allow true)
                  (inr tt)) 23%nat).
  right. by eexists.
Defined.

(** C9: when the table-create statement fails, [initDB] logs "Error initDB"
    and its promise resolves all the same: the script ends with the same
    stack as after a success (with the fallback stage in production) and the
    server listening on the same port. *)
Theorem initDB_failure_continues (w : World) (e : Error) :
  let failed := run initial (server w (inl e)) in
  let succeeded := run initial (server w (inr tt)) in
  "Error initDB" ∈ console failed /\
  stack failed = stack succeeded /\
  listening failed = listening succeeded /\
  listening failed = Some (PORT (processEnv w)) /\
  fallback w `suffix_of` stack failed.
Proof.
  pose proof (final_state w (inl e)) as Hfailed.
  pose proof (final_state w (inr tt)) as Hsucceeded.
  cbv zeta in Hfailed, Hsucceeded |- *.
  destruct Hfailed as (_ & Hl & Hs). destruct Hsucceeded as (_ & Hl' & Hs').
  rewrite Hl, Hl', Hs, Hs'.
  split; [|split; [done|split; [done|split; [done|]]]].
  - unfold server, afterInit. destruct (isProduction (processEnv w));
      apply list_elem_of_In; vm_compute; tauto.
  - rewrite app_eq, app_assoc. by eexists.
Qed.

(** * Further properties of the code *)

(** ** The rate-limit stage: calls, log and answers *)

Lemma toLowerCase_app_inv (s a b : string) :
  Js.toLowerCase s = a +:+ b ->
  exists a' b', s = a' +:+ b' /\ Js.toLowerCase a' = a /\ Js.toLowerCase b' = b.
Proof.
  revert s. induction a as [|c a IH]; intros s H.
  - exists EmptyString, s. by repeat split.
  - destruct s as [|d s]; [discriminate|].
    simpl in H. injection H as Hc Hs.
    destruct (IH s Hs) as (a' & b' & -> & Ha & Hb).
    exists (String d a'), b'. repeat split; [|done]. simpl. by rewrite Hc, Ha.
Qed.

Lemma isTestTool_containsIgnoringCase (ua : string) :
  isTestTool ua = true -> containsIgnoringCase ua "postman".
Proof.
  unfold isTestTool. intros (pre & post & H)%includes_spec.
  apply toLowerCase_app_inv in H as (pre' & rest & -> & _ & Hrest).
  apply toLowerCase_app_inv in Hrest as (mid & post' & -> & Hmid & _).
  exists pre', mid, post'. by split.
Qed.

(** The events of a run of the stage. *)
Lemma arcjet_events (env : gmap string string) (client : Arcjet.Client)
    (req : Request) :
  fst (arcjetMiddleware env client req) =
  if negb (isProduction env) && isTestTool (userAgent req) then []
  else AjProtect req costOne ::
       match Arcjet.protect client req costOne with
       | inl _ => [ConsoleLog "Arcjet error"]
       | inr _ => []
       end.
Proof.
  unfold arcjetMiddleware.
  destruct (negb (isProduction env) && isTestTool (userAgent req)); [done|].
  unfold try_protect, costOne. simpl.
  destruct (Arcjet.protect client req _) as [e|d]; [done|].
  repeat (match goal with |- context [if ?b then _ else _] => destruct b end);
    reflexivity.
Qed.

(** X1: in one run the stage calls the decision service at most once, only
    for the request at hand and only with a cost of one; the only line it
    logs is "Arcjet error", and it logs it exactly when that call raised. *)
Theorem arcjet_protect_once (env : gmap string string) (client : Arcjet.Client)
    (req : Request) :
  let events := fst (arcjetMiddleware env client req) in
  (length (List.filter isProtectCall events) <= 1)%nat /\
  (forall r o, In (AjProtect r o) events -> r = req /\ Arcjet.requested o = 1) /\
  (forall msg, In (ConsoleLog msg) events -> msg = "Arcjet error") /\
  (In (ConsoleLog "Arcjet error") events <->
   consulted (arcjetMiddleware env client req) = true /\
   exists e, Arcjet.protect client req costOne = inl e).
Proof.
  intros events. subst events. unfold consulted.
  rewrite arcjet_events.
  destruct (negb (isProduction env) && isTestTool (userAgent req));
    [|destruct (Arcjet.protect client req costOne) as [e|d] eqn:Hp];
    simpl; (split; [lia|]); repeat split; intros;
    repeat match goal with
           | H : _ \/ _ |- _ => destruct H
           | H : _ /\ _ |- _ => destruct H
           | H : ex _ |- _ => destruct H
           | H : False |- _ => destruct H
           | H : AjProtect _ _ = AjProtect _ _ |- _ => injection H as <- <-
           | H : ConsoleLog _ = ConsoleLog _ |- _ => injection H as <-
           | H : _ = _ |- _ => discriminate H
           end;
    try done; eauto.
Qed.

(** X2: the stage answers a request itself only with 429 or 403 and a JSON
    body with an [error] field, and only when the decision service returned
    a decision that is denied or lists a spoofed bot. *)
Theorem arcjet_answers_only_denials (env : gmap string string)
    (client : Arcjet.Client) (req : Request) (resp : Response) :
  snd (arcjetMiddleware env client req) = Reply resp ->
  (status resp = 429 \/ status resp = 403) /\
  hasErrorField (body resp) /\
  exists d, Arcjet.protect client req costOne = inr d /\
            (Arcjet.isDenied d = true \/
             existsb isSpoofedBot (Arcjet.results d) = true).
Proof.
  intros H.
  destruct (consulted (arcjetMiddleware env client req)) eqn:Hc.
  - rewrite (arcjet_after_call env client req Hc) in H.
    destruct (Arcjet.protect client req costOne) as [e|d]; [discriminate|].
    assert (forall code msg,
              res_status_json code [("error", JString msg)] = Reply resp ->
              status resp = code /\ hasErrorField (body resp)) as Hjson.
    { intros code msg Heq. injection Heq as <-. simpl. split; [done|].
      exists (JString msg). by left. }
    destruct (Arcjet.isDenied d) eqn:Hd.
    + destruct (Arcjet.isRateLimit (Arcjet.reason d));
        [|destruct (Arcjet.isBot (Arcjet.reason d))];
        apply Hjson in H as [Hs Hb]; (split; [tauto|]); (split; [done|]);
        exists d; tauto.
    + destruct (existsb isSpoofedBot (Arcjet.results d)) eqn:Hsp; [|discriminate].
      apply Hjson in H as [Hs Hb]. split; [tauto|]. split; [done|].
      exists d. tauto.
  - apply not_true_iff_false in Hc. rewrite consulted_iff in Hc.
    apply not_false_iff_true in Hc. apply andb_prop in Hc as [Hp Ht].
    apply negb_true_iff in Hp.
    rewrite (arcjet_bypass env client req Hp Ht) in H. discriminate.
Qed.

(** A rate-limited request is answered with 429. *)
Lemma arcjet_answers_only_denials_witness :
  (429 = 429 \/ 429 = 403) /\
  hasErrorField (JsonBody (JObject [("error", JString "Too Many Requests")])) /\
  exists d, Arcjet.protect Sample.aj_rateLimited
              (Sample.request GET "/api/products") costOne = inr d /\
            (Arcjet.isDenied d = true \/
             existsb isSpoofedBot (Arcjet.results d) = true).
Proof.
  apply (arcjet_answers_only_denials Sample.env_production Sample.aj_rateLimited
           (Sample.request GET "/api/products")
           {| status := 429;
              body := JsonBody (JObject [("error", JString "Too Many Requests")]) |}).
  reflexivity.
Defined.

(** X3: the stage is bypassed only outside production and only for a
    User-Agent that contains 'postman' when case is ignored. *)
Theorem bypass_only_with_signature (env : gmap string string)
    (client : Arcjet.Client) (req : Request) :
  bypassed (arcjetMiddleware env client req) ->
  NODE_ENV env <> Some "production" /\
  containsIgnoringCase (userAgent req) "postman".
Proof.
  intros [Hc _].
  apply not_true_iff_false in Hc. rewrite consulted_iff in Hc.
  apply not_false_iff_true in Hc. apply andb_prop in Hc as [Hp Ht].
  apply negb_true_iff in Hp. split.
  - by apply isProduction_false.
  - by apply isTestTool_containsIgnoringCase.
Qed.

(** A development request from PostmanRuntime is bypassed, and its
    User-Agent contains the signature. *)
Lemma bypass_only_with_signature_witness :
  NODE_ENV Sample.env_development <> Some "production" /\
  containsIgnoringCase
    (userAgent (Sample.requestFrom "PostmanRuntime/7.32.3" GET "/api/products"))
    "postman".
Proof.
  apply (bypass_only_with_signature Sample.env_development Sample.aj_allow
           (Sample.requestFrom "PostmanRuntime/7.32.3" GET "/api/products")).
  split; reflexivity.
Defined.

(** ** The routers: which route takes a request *)

Lemma findRoute_matching (routes : list RouterRoute) (m : Method) (p : string) :
  findRoute routes m p = routeHandler <$> head (matching routes m p).
Proof.
  induction routes as [|r rest IH]; [done|].
  unfold matching in *. simpl. unfold routeMatches at 1.
  destruct (PathMatch.matchRoute (routePattern r) p); [|exact IH].
  destruct (handlesMethod (routeMethod r) m); [done | exact IH].
Qed.

Lemma filter_Permutation_bool {A : Type} (f : A -> bool) (l k : list A) :
  l ≡ₚ k -> List.filter f l ≡ₚ List.filter f k.
Proof.
  induction 1 as [|x l k _ IH|x y l|l k j _ IH1 _ IH2]; simpl.
  - done.
  - destruct (f x); [by constructor | done].
  - destruct (f x), (f y); try done. apply perm_swap.
  - by etrans.
Qed.

(** When at most one route is for a request, the order in which the routes
    were registered does not matter. *)
Lemma findRoute_Permutation (routes routes' : list RouterRoute) (m : Method)
    (p : string) :
  (length (matching routes m p) <= 1)%nat ->
  routes' ≡ₚ routes ->
  findRoute routes' m p = findRoute routes m p.
Proof.
  intros Hlen Hperm. rewrite !findRoute_matching.
  apply (filter_Permutation_bool (routeMatches m p)) in Hperm.
  fold (matching routes' m p) in Hperm. fold (matching routes m p) in Hperm.
  destruct (matching routes m p) as [|r [|r' rest]]; simpl in Hlen; [| |lia].
  - apply Permutation_nil_r in Hperm. by rewrite Hperm.
  - apply Permutation_singleton_r in Hperm. by rewrite Hperm.
Qed.

(** ["/"] takes the root only, and ["/:id"] does not take the root. *)
Lemma matchRoute_root_inv (p : string) :
  PathMatch.matchRoute "/" p <> None -> p = "" \/ p = "/".
Proof.
  destruct p as [|c [|c' r]]; [by left | | done].
  change (PathMatch.matchRoute "/" (String c ""))
    with (if Ascii.eqb c PathMatch.slash then Some [] else None : option (list (string * string))).
  destruct (Ascii.eqb c PathMatch.slash) eqn:E; [|done].
  apply Ascii.eqb_eq in E. subst c. by right.
Qed.

Lemma root_id_disjoint (p : string) :
  PathMatch.matchRoute "/" p <> None -> PathMatch.matchRoute "/:id" p = None.
Proof. intros [-> | ->]%matchRoute_root_inv; reflexivity. Qed.

(** X4: in both routers at most one route is for any method and path, so no
    route shadows another and the routers would give every request to the
    same controller whatever the order of their [router.get], [router.post],
    ... lines. *)
Theorem routes_do_not_shadow (m : Method) (p : string) :
  (length (matching productRoutes m p) <= 1)%nat /\
  (length (matching productRoutes_part_000 m p) <= 1)%nat /\
  (forall routes', routes' ≡ₚ productRoutes ->
     findRoute routes' m p = findRoute productRoutes m p) /\
  (forall routes', routes' ≡ₚ productRoutes_part_000 ->
     findRoute routes' m p = findRoute productRoutes_part_000 m p).
Proof.
  assert ((length (matching productRoutes m p) <= 1)%nat) as H1.
  { unfold matching, productRoutes, routeMatches.
    cbn [List.filter routePattern routeMethod].
    destruct (PathMatch.matchRoute "/" p); destruct m; simpl; lia. }
  assert ((length (matching productRoutes_part_000 m p) <= 1)%nat) as H2.
  { pose proof (root_id_disjoint p) as Hdis.
    unfold matching, productRoutes_part_000, routeMatches.
    cbn [List.filter routePattern routeMethod].
    destruct (PathMatch.matchRoute "/" p) eqn:E1.
    - rewrite Hdis by done. destruct m; simpl; lia.
    - destruct (PathMatch.matchRoute "/:id" p); destruct m; simpl; lia. }
  split; [exact H1|]. split; [exact H2|]. split.
  - intros routes'. by apply findRoute_Permutation.
  - intros routes'. by apply findRoute_Permutation.
Qed.

(** X5: the router of the other routes file gives a request for one id
    segment to the controller of its method, with the segment bound to
    [req.params.id]: GET and HEAD to getProduct, PUT to updateProduct,
    DELETE to deleteProduct; POST and PATCH on an id reach no controller,
    and OPTIONS gets the automatic answer listing GET, HEAD, PUT, DELETE.
    What the controller does with control is what the router does. *)
Theorem part_000_dispatch
    (ctl : Controller -> Request -> list (string * string) -> Outcome)
    (req : Request) (id : string) :
  validId id ->
  path req = "/" +:+ id ->
  routerHandle ctl productRoutes_part_000 req [] =
  match method req with
  | GET | HEAD => ctl getProduct req [("id", id)]
  | PUT => ctl updateProduct req [("id", id)]
  | DELETE => ctl deleteProduct req [("id", id)]
  | POST | PATCH => Pass
  | OPTIONS => Reply (optionsResponse [GET; HEAD; PUT; DELETE])
  end.
Proof.
  intros Hid Hpath.
  pose proof (matchRoute_id id Hid) as Hm.
  pose proof (matchRoute_root id (proj1 Hid)) as Hr.
  unfold productRoutes_part_000.
  cbn [routerHandle routePattern routeMethod routeHandler].
  rewrite Hpath, Hr, Hm. unfold collectOptions, routerDone.
  destruct (method req) eqn:Hmeth; simpl;
    try reflexivity;
    match goal with |- context [ctl ?c req ?ps] => by destruct (ctl c req ps) end.
Qed.

(** PUT /42 goes to updateProduct with id = 42. *)
Lemma part_000_dispatch_witness :
  routerHandle (fun c _ ps => match c, ps with
                              | updateProduct, [("id", "42")] => res_json []
                              | _, _ => Pass
                              end)
    productRoutes_part_000 (Sample.request PUT "/42") []
  = res_json [].
Proof.
  apply (part_000_dispatch
           (fun c _ ps => match c, ps with
                          | updateProduct, [("id", "42")] => res_json []
                          | _, _ => Pass
                          end)
           (Sample.request PUT "/42") "42").
  - split; [discriminate | reflexivity].
  - reflexivity.
Defined.

(** ** Paths are matched without regard to case *)

Lemma lowerUnit_slash (c : ascii) :
  Ascii.eqb (Js.lowerUnit c) PathMatch.slash = Ascii.eqb c PathMatch.slash.
Proof. destruct c as [[] [] [] [] [] [] [] []]; reflexivity. Qed.

Lemma lowerUnit_idem (c : ascii) : Js.lowerUnit (Js.lowerUnit c) = Js.lowerUnit c.
Proof. destruct c as [[] [] [] [] [] [] [] []]; reflexivity. Qed.

Lemma toLowerCase_idem (s : string) :
  Js.toLowerCase (Js.toLowerCase s) = Js.toLowerCase s.
Proof. induction s as [|c s IH]; simpl; [done|]. by rewrite lowerUnit_idem, IH. Qed.

Lemma toLowerCase_slash_inv (s : string) : Js.toLowerCase s = "/" -> s = "/".
Proof.
  destruct s as [|c [|c' s]]; try discriminate. simpl. intros H.
  injection H as H. pose proof (lowerUnit_slash c) as Hc.
  rewrite H in Hc. simpl in Hc. symmetry in Hc. apply Ascii.eqb_eq in Hc.
  by subst c.
Qed.

Lemma takeSegment_lower (s : string) :
  PathMatch.takeSegment (Js.toLowerCase s) =
  (Js.toLowerCase (fst (PathMatch.takeSegment s)),
   Js.toLowerCase (snd (PathMatch.takeSegment s))).
Proof.
  induction s as [|c s IH]; [done|]. simpl.
  rewrite lowerUnit_slash. destruct (Ascii.eqb c PathMatch.slash); [done|].
  rewrite IH. by destruct (PathMatch.takeSegment s).
Qed.

(** A route without parameters takes a path exactly when it takes the
    path in lower case. *)
Lemma matchTokens_lower (toks : list PathMatch.Token) (p : string) :
  Forall (fun t => exists l, t = PathMatch.Lit l) toks ->
  PathMatch.matchTokens toks (Js.toLowerCase p) = PathMatch.matchTokens toks p.
Proof.
  intros Hlit. revert p. induction Hlit as [|t toks [l ->] _ IH]; intros p.
  - destruct p as [|c [|c' p]]; [done| |done]. simpl.
    by rewrite lowerUnit_slash.
  - destruct p as [|c p]; [done|]. simpl. rewrite lowerUnit_slash.
    destruct (Ascii.eqb c PathMatch.slash); [|done].
    rewrite takeSegment_lower. destruct (PathMatch.takeSegment p) as [seg rest].
    simpl. rewrite toLowerCase_idem, IH. reflexivity.
Qed.

Lemma stripPrefix_lower (prefix p : string) :
  PathMatch.stripPrefix prefix (Js.toLowerCase p) =
  option_map Js.toLowerCase (PathMatch.stripPrefix prefix p).
Proof.
  revert p. induction prefix as [|a prefix IH]; intros p; [done|].
  destruct p as [|b p]; [done|]. simpl. rewrite lowerUnit_idem.
  destruct (Ascii.eqb (Js.lowerUnit a) (Js.lowerUnit b)); [apply IH | done].
Qed.

Lemma matchMount_lower (prefix p : string) :
  PathMatch.matchMount prefix (Js.toLowerCase p) =
  option_map Js.toLowerCase (PathMatch.matchMount prefix p).
Proof.
  unfold PathMatch.matchMount. rewrite stripPrefix_lower.
  destruct (PathMatch.stripPrefix prefix p) as [[|c [|c' r]]|]; simpl; try done.
  - rewrite lowerUnit_slash. by destruct (Ascii.eqb c PathMatch.slash).
  - rewrite !lowerUnit_slash.
    destruct (Ascii.eqb c PathMatch.slash); [|done].
    by destruct (Ascii.eqb c' PathMatch.slash).
Qed.

(** The three literal routes and the mount of [server.js] on a path, from
    the path in lower case. *)
Lemma testPath_route_lower (p : string) :
  PathMatch.matchRoute "/test-path" p = PathMatch.matchRoute "/test-path" (Js.toLowerCase p).
Proof.
  symmetry. apply matchTokens_lower.
  repeat (apply Forall_cons; split; [by eexists|]). apply Forall_nil_2.
Qed.

Lemma apiTest_route_lower (p : string) :
  PathMatch.matchRoute "/api/test" p = PathMatch.matchRoute "/api/test" (Js.toLowerCase p).
Proof.
  symmetry. apply matchTokens_lower.
  repeat (apply Forall_cons; split; [by eexists|]). apply Forall_nil_2.
Qed.

(** ** Requests through the whole application *)

Lemma handle_NoMatch (w : World) (req : Request) (l : Layer) (rest : list Layer)
    (options : list Method) :
  layerMatch l req = NoMatch ->
  handle w (l :: rest) req options = handle w rest req options.
Proof. intros H. simpl. by rewrite H. Qed.

Lemma handle_Matched (w : World) (req req' : Request) (l : Layer)
    (rest : list Layer) (options : list Method) :
  layerMatch l req = Matched req' ->
  handle w (l :: rest) req options =
  match runHandler w (layerHandler l) req' with
  | Pass => (layerHandler l :: fst (handle w rest req options),
             snd (handle w rest req options))
  | PassError e => ([layerHandler l], finalhandler (Some e) req)
  | Reply resp => ([layerHandler l], resp)
  end.
Proof.
  intros H. simpl. rewrite H.
  destruct (runHandler w (layerHandler l) req'); [|done..].
  by destruct (handle w rest req options).
Qed.

(** An admitted request has run the five admission stages and goes on with
    the layers after them. *)
Lemma admitted_handle (w : World) (req : Request) (post : list Layer)
    (options : list Method) :
  admitted w req = true ->
  handle w ((Use <$> admission) ++ post) req options =
  (admission ++ fst (handle w post req options),
   snd (handle w post req options)).
Proof.
  unfold admitted, fallsThrough, admission, passes. simpl.
  intros H.
  repeat match goal with
         | Hc : _ && _ = true |- _ => apply andb_prop in Hc; destruct Hc
         end.
  repeat match goal with
         | Hp : match ?o with Pass => _ | PassError _ => _ | Reply _ => _ end = true
           |- _ => destruct o; try discriminate Hp; clear Hp
         end.
  by destruct (handle w post req options).
Qed.

Lemma mount_root_lower (req : Request) :
  Js.toLowerCase (path req) = "/api/products" \/
  Js.toLowerCase (path req) = "/api/products/" ->
  layerMatch (Get "/test-path" testPath) req = NoMatch /\
  layerMatch (UseAt apiRoot (router productRoutes)) req = Matched (below "/" req).
Proof.
  intros Hp. split.
  - unfold layerMatch. rewrite testPath_route_lower.
    by destruct Hp as [-> | ->].
  - unfold layerMatch.
    pose proof (matchMount_lower apiRoot (path req)) as Hm.
    assert (PathMatch.matchMount apiRoot (Js.toLowerCase (path req)) = Some "/") as Hl
      by (by destruct Hp as [-> | ->]).
    rewrite Hl in Hm.
    destruct (PathMatch.matchMount apiRoot (path req)) as [rest|]; [|discriminate].
    simpl in Hm. injection Hm as Hm. symmetry in Hm.
    apply toLowerCase_slash_inv in Hm. by subst rest.
Qed.

(** X6: the two endpoints the imported router has are served end to end.
    For an admitted request whose path is /api/products in any case, with or
    without a trailing slash, GET and HEAD run getAllProducts and POST runs
    createProduct, on the path "/" and with no parameters; the controller's
    response is the server's response and no later layer runs, and an error
    the controller forwards goes to the final handler. *)
Theorem list_and_create_served (w : World) (req : Request) (c : Controller) :
  admitted w req = true ->
  Js.toLowerCase (path req) = "/api/products" \/
  Js.toLowerCase (path req) = "/api/products/" ->
  (method req = GET \/ method req = HEAD) /\ c = getAllProducts \/
  method req = POST /\ c = createProduct ->
  (forall resp, controller w c (below "/" req) [] = Reply resp ->
     serve w req = (admission ++ [router productRoutes], resp)) /\
  (forall e, controller w c (below "/" req) [] = PassError e ->
     serve w req = (admission ++ [router productRoutes], finalhandler (Some e) req)).
Proof.
  intros Hadm Hpath Hmeth.
  destruct (mount_root_lower req Hpath) as [Htest Hmount].
  assert (runHandler w (router productRoutes) (below "/" req)
          = match controller w c (below "/" req) [] with
            | Pass => runHandler w (router productRoutes) (below "/" req)
            | o => o
            end) as Hrun.
  { change (runHandler w (router productRoutes) (below "/" req))
      with (routerHandle (controller w) productRoutes (below "/" req) []).
    unfold productRoutes.
    cbn [routerHandle routePattern routeMethod routeHandler below path method].
    change (PathMatch.matchRoute "/" "/") with (Some ([] : list (string * string))).
    destruct Hmeth as [[[Hm | Hm] ->] | [Hm ->]]; rewrite Hm; simpl;
      repeat match goal with
             | |- context [controller w ?c ?r ?ps] =>
                 destruct (controller w c r ps); try reflexivity
             end. }
  assert (forall o, o <> Pass -> controller w c (below "/" req) [] = o ->
            serve w req =
            (admission ++ [router productRoutes],
             match o with
             | Reply resp => resp
             | PassError e => finalhandler (Some e) req
             | Pass => finalhandler None req
             end)) as Hserve.
  { intros o Ho Hc. unfold serve. rewrite app_eq, (admitted_handle w req _ _ Hadm).
    unfold alternatives. cbn [List.app].
    rewrite (handle_NoMatch w req _ _ _ Htest).
    rewrite (handle_Matched w req _ _ _ _ Hmount).
    simpl layerHandler. rewrite Hrun, Hc. by destruct o. }
  split.
  - intros resp Hc. by apply (Hserve (Reply resp)).
  - intros e Hc. by apply (Hserve (PassError e)).
Qed.

(** GET /API/Products/ is answered by getAllProducts. *)
Lemma list_and_create_served_witness :
  serve (Sample.world Sample.env_development Sample.aj_allow true)
    (Sample.request GET "/API/Products/")
  = (admission ++ [router productRoutes], {| status := 200; body := JsonBody (JObject []) |}).
Proof.
  apply (proj1 (list_and_create_served
                  (Sample.world Sample.env_development Sample.aj_allow true)
                  (Sample.request GET "/API/Products/") getAllProducts
                  eq_refl (or_intror eq_refl)
                  (or_introl (conj (or_introl eq_refl) eq_refl)))).
  reflexivity.
Defined.

Lemma handlesMethod_GET (m : Method) :
  m = GET \/ m = HEAD -> handlesMethod GET m = true.
Proof. by intros [-> | ->]. Qed.

(** X7: the two diagnostic endpoints are served end to end. For an admitted
    GET or HEAD request whose path is /test-path (in any case, with or
    without a trailing slash) the diagnostic handler answers 200 with
    [exists] telling whether the entry document exists and [files] listing
    its directory, empty when it does not exist; for /api/test the answer is
    200 with the message "API is working". In both cases no other routing
    layer runs, whatever the environment, the static directory and the
    controllers. *)
Theorem diagnostics_served (w : World) (req : Request) :
  admitted w req = true ->
  method req = GET \/ method req = HEAD ->
  (Js.toLowerCase (path req) = "/test-path" \/
   Js.toLowerCase (path req) = "/test-path/" ->
   exists resp,
     serve w req = (admission ++ [testPath], resp) /\
     status resp = 200 /\
     bodyField "exists" resp = Some (JBool (existsSync w (indexPath w))) /\
     bodyField "files" resp =
       Some (JArray (if existsSync w (indexPath w)
                     then JString <$> readdirSync w (path_dirname w (indexPath w))
                     else []))) /\
  (Js.toLowerCase (path req) = "/api/test" \/
   Js.toLowerCase (path req) = "/api/test/" ->
   serve w req =
   (admission ++ [apiTest],
    {| status := 200;
       body := JsonBody (JObject [("message", JString "API is working")]) |})).
Proof.
  intros Hadm Hmeth. apply handlesMethod_GET in Hmeth. split.
  - intros Hp.
    assert (layerMatch (Get "/test-path" testPath) req = Matched req) as Hm.
    { unfold layerMatch. rewrite testPath_route_lower.
      destruct Hp as [-> | ->]; simpl; by rewrite Hmeth. }
    eexists. split; [|split; [|split]].
    + unfold serve. rewrite app_eq, (admitted_handle w req _ _ Hadm).
      unfold alternatives. cbn [List.app].
      rewrite (handle_Matched w req _ _ _ _ Hm). reflexivity.
    + reflexivity.
    + reflexivity.
    + reflexivity.
  - intros Hp.
    assert (layerMatch (Get "/test-path" testPath) req = NoMatch) as Htest.
    { unfold layerMatch. rewrite testPath_route_lower.
      by destruct Hp as [-> | ->]. }
    assert (layerMatch (UseAt apiRoot (router productRoutes)) req = NoMatch) as Hmount.
    { unfold layerMatch.
      pose proof (matchMount_lower apiRoot (path req)) as Hl.
      destruct (PathMatch.matchMount apiRoot (path req)); [|done].
      destruct Hp as [Hp | Hp]; rewrite Hp in Hl; discriminate Hl. }
    assert (layerMatch (Get "/api/test" apiTest) req = Matched req) as Hm.
    { unfold layerMatch. rewrite apiTest_route_lower.
      destruct Hp as [-> | ->]; simpl; by rewrite Hmeth. }
    unfold serve. rewrite app_eq, (admitted_handle w req _ _ Hadm).
    unfold alternatives. cbn [List.app].
    rewrite (handle_NoMatch w req _ _ _ Htest).
    rewrite (handle_NoMatch w req _ _ _ Hmount).
    rewrite (handle_Matched w req _ _ _ _ Hm). reflexivity.
Qed.

(** HEAD /Api/Test/ gets the liveness payload, in production too. *)
Lemma diagnostics_served_witness :
  serve (Sample.world Sample.env_production Sample.aj_allow false)
    (Sample.request HEAD "/Api/Test/")
  = (admission ++ [apiTest],
     {| status := 200;
        body := JsonBody (JObject [("message", JString "API is working")]) |}).
Proof.
  apply (proj2 (diagnostics_served
                  (Sample.world Sample.env_production Sample.aj_allow false)
                  (Sample.request HEAD "/Api/Test/")
                  eq_refl (or_intror eq_refl))).
  right. reflexivity.
Defined.

(** X8: a request the rate-limit stage answers (429 or 403) gets exactly
    that answer from the server, and nothing after the stage runs: no
    route, no controller, no static file, no fallback. *)
Theorem denial_ends_request (w : World) (req : Request) (resp : Response) :
  fallsThrough w
    (Use <$> [express_json; cors; helmet {| contentSecurityPolicy := false |};
              morgan "dev"]) req = true ->
  snd (arcjetMiddleware (processEnv w) (aj w) req) = Reply resp ->
  serve w req = (admission, resp).
Proof.
  unfold fallsThrough, passes. simpl. intros H Hdeny.
  repeat match goal with
         | Hc : _ && _ = true |- _ => apply andb_prop in Hc; destruct Hc
         end.
  unfold serve. rewrite app_layers. rewrite !handle_Use. cbn [runHandler].
  repeat match goal with
         | Hp : match ?o with Pass => _ | PassError _ => _ | Reply _ => _ end = true
           |- _ => destruct o; try discriminate Hp; clear Hp
         end.
  by rewrite Hdeny.
Qed.

(** A rate-limited GET /api/products gets the 429 and reaches no router. *)
Lemma denial_ends_request_witness :
  serve (Sample.world Sample.env_production Sample.aj_rateLimited true)
    (Sample.request GET "/api/products")
  = (admission,
     {| status := 429;
        body := JsonBody (JObject [("error", JString "Too Many Requests")]) |}).
Proof.
  apply (denial_ends_request
           (Sample.world Sample.env_production Sample.aj_rateLimited true)
           (Sample.request GET "/api/products")); reflexivity.
Defined.

Lemma catchAll_skips (w : World) (req : Request) :
  Js.startsWith (path req) "/api/" = true \/ path req = "/test-path" ->
  runHandler w catchAll req = Pass.
Proof.
  intros H. simpl. unfold catchAllMiddleware, Js.strictEq.
  destruct H as [-> | ->]; [done|]. by rewrite orb_true_r.
Qed.

(** The response to a request that falls through the layers of lines 32-107. *)
Lemma unmatched_response (w : World) (req : Request) :
  fallsThrough w (preFallback w) req = true ->
  method req <> OPTIONS ->
  snd (serve w req) =
  if isProduction (processEnv w)
  then match runHandler w catchAll req with
       | Pass => finalhandler None req
       | PassError e => finalhandler (Some e) req
       | Reply resp => resp
       end
  else finalhandler None req.
Proof.
  intros Hft Hmeth.
  destruct (handle_fallsThrough w req (preFallback w) Hft [])
    as (visited & options' & Hopt & Hrun).
  rewrite (Hopt Hmeth) in Hrun.
  unfold serve. rewrite app_eq, app_assoc, <- preFallback_eq, Hrun.
  unfold fallback. destruct (isProduction (processEnv w)).
  - rewrite handle_Use. destruct (runHandler w catchAll req); try done.
  - simpl. by apply appDone_not_options.
Qed.

(** X9: a request under /api/ (or for /test-path) that no route, router or
    static file answers gets the final handler's 404 in every environment:
    the fallback stage never sends the entry document for it. Conversely, in
    production these are the only unanswered requests that reach the final
    handler; every other one is answered by the fallback stage. *)
Theorem api_paths_never_get_spa (w : World) (req : Request) :
  fallsThrough w (preFallback w) req = true ->
  method req <> OPTIONS ->
  (Js.startsWith (path req) "/api/" = true \/ path req = "/test-path" ->
   snd (serve w req) = finalhandler None req /\ status (snd (serve w req)) = 404) /\
  (isProduction (processEnv w) = true ->
   snd (serve w req) = finalhandler None req ->
   Js.startsWith (path req) "/api/" = true \/ path req = "/test-path").
Proof.
  intros Hft Hmeth. pose proof (unmatched_response w req Hft Hmeth) as Hresp.
  split.
  - intros Hapi. rewrite (catchAll_skips w req Hapi) in Hresp.
    assert (snd (serve w req) = finalhandler None req) as ->.
    { rewrite Hresp. by destruct (isProduction (processEnv w)). }
    by split.
  - intros Hprod Hfinal. rewrite Hprod in Hresp.
    destruct (Js.startsWith (path req) "/api/") eqn:Hapi; [by left|].
    destruct (String.eqb (path req) "/test-path") eqn:Htest;
      [right; by apply String.eqb_eq|].
    apply String.eqb_neq in Htest.
    rewrite (catchAll_answers w req Hapi Htest), Hfinal in Hresp.
    unfold spaAnswer in Hresp. by destruct (existsSync w (indexPath w)).
Qed.

(** In production GET /api/orders gets the 404 although the entry document
    exists. *)
Lemma api_paths_never_get_spa_witness :
  snd (serve (Sample.world Sample.env_production Sample.aj_allow true)
         (Sample.request GET "/api/orders"))
  = finalhandler None (Sample.request GET "/api/orders") /\
  status (snd (serve (Sample.world Sample.env_production Sample.aj_allow true)
                 (Sample.request GET "/api/orders"))) = 404.
Proof.
  assert (GET <> OPTIONS) as Hm by discriminate.
  apply (proj1 (api_paths_never_get_spa
                  (Sample.world Sample.env_production Sample.aj_allow true)
                  (Sample.request GET "/api/orders") eq_refl Hm)).
  left. reflexivity.
Defined.

(** X10: the diagnostic endpoint and the fallback stage look at the same
    file: /test-path reports [exists: true] exactly when the fallback stage
    sends the entry document (status 200) for a path it does not skip, and
    [exists: false] exactly when it answers 404 "Frontend build not found". *)
Theorem diagnostic_agrees_with_fallback (w : World) (any req : Request)
    (diagnostic : Response) :
  testPathHandler w any = Reply diagnostic ->
  Js.startsWith (path req) "/api/" = false ->
  path req <> "/test-path" ->
  (bodyField "exists" diagnostic = Some (JBool true) <->
   runHandler w catchAll req =
     Reply {| status := 200; body := FileBody (indexPath w) |}) /\
  (bodyField "exists" diagnostic = Some (JBool false) <->
   runHandler w catchAll req =
     Reply {| status := 404; body := TextBody "Frontend build not found" |}).
Proof.
  intros Hdiag Hapi Htest. rewrite (catchAll_answers w req Hapi Htest).
  unfold testPathHandler, res_json, res_status_json in Hdiag.
  injection Hdiag as <-. unfold bodyField, spaAnswer. simpl.
  destruct (existsSync w (indexPath w)); split; split; intros H;
    try done; try discriminate H; by injection H.
Qed.

(** Without a build, /test-path reports [exists: false] and the fallback
    answers 404. *)
Lemma diagnostic_agrees_with_fallback_witness :
  bodyField "exists"
    {| status := 200;
       body := JsonBody (JObject
         [ ("__dirname", JString "/app/backend");
           ("distPath", JString "/app/backend/../frontend/dist");
           ("indexPath", JString "/app/backend/../frontend/dist/index.html");
           ("exists", JBool false);
           ("files", JArray []) ]) |} = Some (JBool false) <->
  runHandler (Sample.world Sample.env_production Sample.aj_allow false) catchAll
    (Sample.request GET "/about")
  = Reply {| status := 404; body := TextBody "Frontend build not found" |}.
Proof.
  assert ("/about" <> "/test-path") as Hne by discriminate.
  apply (proj2 (diagnostic_agrees_with_fallback
                  (Sample.world Sample.env_production Sample.aj_allow false)
                  (Sample.request GET "/test-path") (Sample.request GET "/about")
                  _ eq_refl eq_refl Hne)).
Defined.

(** ** Bootstrap: port, console and a failed import *)


(** X12: the console tells what happened: "Database initialized
    successfully" is logged exactly when the table-create statement
    succeeded, "Error initDB" exactly when it failed, and "Catch-all route
    set up successfully" exactly in production. *)
Theorem console_reports (w : World) (r : SqlResult) :
  let out := console (run initial (server w r)) in
  (In "Database initialized successfully" out <-> exists u, r = inr u) /\
  (In "Error initDB" out <-> exists e, r = inl e) /\
  (In "Catch-all route set up successfully" out <->
   isProduction (processEnv w) = true).
Proof.
  cbv zeta. unfold server, afterInit.
  destruct r as [e|u]; destruct (isProduction (processEnv w));
    cbn [initDB List.app]; vm_compute console;
    (split; [|split]);
    split; intros H; simpl in H;
    repeat match goal with
           | Hx : ex _ |- _ => destruct Hx
           | Hx : _ \/ _ |- _ => destruct Hx
           | Hx : False |- _ => destruct Hx
           | Hx : _ = _ |- _ => discriminate Hx
           end;
    try (by eexists); simpl; tauto.
Qed.

(** X13: when the import of the routes module fails, the failure is logged
    but the module does not survive it: [app.use("/api/products",
    undefined)] throws, so in every state the aborted script goes through
    no router is mounted, the table-create statement has not been issued and
    the server does not listen. With the routes module imported the script
    is the one of [server]. *)
Theorem failed_import_is_fatal (w : World) (r : SqlResult) (e : Error) :
  (exists script err,
     evaluate (inl e) w r = Aborted script err /\
     In "Error importing product routes:" (console (run initial script)) /\
     forall n : nat,
       let s := run initial (take n script) in
       listening s = None /\
       tableCreate s = NotIssued /\
       forall l routes, In l (stack s) -> layerHandler l <> router routes) /\
  evaluate (inr productRoutes) w r =
    Evaluated (Log "Product routes imported successfully" :: server w r).
Proof.
  split; [|reflexivity].
  eexists. eexists. split; [reflexivity|]. split; [simpl; tauto|].
  intros n.
  do 10 (destruct n as [|n];
         [cbv zeta; simpl; repeat split; intros l routes Hl;
          intuition (subst; discriminate)|]).
  cbv zeta. simpl. rewrite take_nil. simpl. repeat split.
  intros l routes Hl. intuition (subst; discriminate).
Qed.

(** ** Static files and the fallback stage *)

(** X14: static files come before the fallback stage. When no admission
    stage, diagnostic route or router keeps a GET or HEAD request and the
    static directory has a file for its path, the server's answer is that
    file and the fallback stage does not run, in production as elsewhere;
    for any other method the static stage serves nothing and passes the
    request on. *)
Theorem static_before_fallback (w : World) (req : Request) (file : Response) :
  fallsThrough w
    ((Use <$> admission) ++
     [ Get "/test-path" testPath; UseAt "/api/products" (router productRoutes);
       Get "/api/test" apiTest ]) req = true ->
  staticFile w (distPath w) (path req) = Some file ->
  (method req = GET \/ method req = HEAD ->
   snd (serve w req) = file /\
   last (fst (serve w req)) = Some (express_static (distPath w)) /\
   catchAll ∉ fst (serve w req)) /\
  (method req <> GET -> method req <> HEAD ->
   runHandler w (express_static (distPath w)) req = Pass).
Proof.
  intros Hft Hfile. split.
  - intros Hmeth.
    assert (runHandler w (express_static (distPath w)) req = Reply file) as Hrun.
    { simpl. unfold staticMiddleware. rewrite Hfile. by destruct Hmeth as [-> | ->]. }
    destruct (handle_fallsThrough w req _ Hft []) as (visited & options' & _ & Hpre).
    assert (app w =
            ((Use <$> admission) ++
             [ Get "/test-path" testPath; UseAt "/api/products" (router productRoutes);
               Get "/api/test" apiTest ]) ++
            Use (express_static (distPath w)) :: fallback w) as Happ.
    { rewrite app_eq. unfold alternatives. by rewrite <- app_assoc. }
    unfold serve. rewrite Happ, Hpre, handle_Use, Hrun. simpl.
    split; [done|]. split; [apply last_snoc|].
    intros Hin. apply elem_of_app in Hin as [Hin|Hin].
    + pose proof (handle_sublist w req
                    (((Use <$> admission) ++
                      [ Get "/test-path" testPath;
                        UseAt "/api/products" (router productRoutes);
                        Get "/api/test" apiTest ]) ++ []) []) as Hsub.
      rewrite (Hpre []) in Hsub. cbn [fst handle] in Hsub.
      rewrite !app_nil_r in Hsub.
      apply (elem_of_sublist _ _ _ Hin) in Hsub. revert Hsub. other_handlers.
    + revert Hin. other_handlers.
  - intros Hget Hhead. simpl. unfold staticMiddleware.
    by destruct (method req).
Qed.

(** In production a GET for an asset that exists gets the asset. *)
Lemma static_before_fallback_witness :
  snd (serve (Sample.world_with_assets Sample.env_production)
         (Sample.request GET "/assets/app.js"))
  = {| status := 200;
       body := FileBody "/app/backend/../frontend/dist/assets/app.js" |}.
Proof.
  apply (proj1 (static_before_fallback
                  (Sample.world_with_assets Sample.env_production)
                  (Sample.request GET "/assets/app.js")
                  {| status := 200;
                     body := FileBody "/app/backend/../frontend/dist/assets/app.js" |}
                  eq_refl eq_refl)).
  left. reflexivity.
Defined.

(** ** Concrete runs of the statements above *)

(** In production the one call for GET /api/products has a cost of one. *)
Lemma arcjet_protect_once_witness :
  Sample.request GET "/api/products" = Sample.request GET "/api/products" /\
  Arcjet.requested costOne = 1.
Proof.
  destruct (arcjet_protect_once Sample.env_production Sample.aj_allow
              (Sample.request GET "/api/products")) as (_ & Hcall & _).
  apply (Hcall (Sample.request GET "/api/products") costOne).
  left. reflexivity.
Defined.

(** The five routes registered in the reverse order still give PUT /7 to
    updateProduct. *)
Lemma routes_do_not_shadow_witness :
  findRoute (reverse productRoutes_part_000) PUT "/7"
  = findRoute productRoutes_part_000 PUT "/7".
Proof.
  destruct (routes_do_not_shadow PUT "/7") as (_ & _ & _ & Hperm).
  apply (Hperm (reverse productRoutes_part_000)).
  apply reverse_Permutation.
Defined.


(** A failed statement leaves "Error initDB" on the console. *)
Lemma console_reports_witness :
  In "Error initDB"
    (console
       (run initial
          (server (Sample.world Sample.env_production Sample.aj_allow true)
             (inl Sample.unreachable)))).
Proof.
  destruct (console_reports
              (Sample.world Sample.env_production Sample.aj_allow true)
              (inl Sample.unreachable)) as (_ & Herr & _).
  apply Herr. by eexists.
Defined.

(** After a failed import the module ends without a listening server. *)
Lemma failed_import_is_fatal_witness :
  exists script err,
    evaluate (inl Sample.unreachable)
      (Sample.world Sample.env_production Sample.aj_allow true) (inr tt)
    = Aborted script err /\
    listening (run initial (take 10 script)) = None.
Proof.
  destruct (failed_import_is_fatal
              (Sample.world Sample.env_production Sample.aj_allow true)
              (inr tt) Sample.unreachable) as [(script & err & Hev & _ & Hall) _].
  exists script, err. split; [exact Hev|]. apply (Hall 10%nat).
Defined.
